(** * httpie download mode ([httpie/downloads.py]): a shallow embedding

    Python integers are modelled as [Z], the floating point readings of
    [time()] and the quotients computed from them as exact rationals [Q],
    text as [string], [None]-able attributes as [option], the request
    header dictionary as a [gmap], and raised exceptions as the [Raise]
    branch of [result].

    The characters of a [string] are the 256 of Latin-1, as which header
    values reach this module; the regular expressions are read as Python 3
    reads [str] patterns, where [\s] is more than the six ASCII blanks.
    Integers are converted from and to text without the interpreter's
    limit on their digits ([sys.set_int_max_str_digits]), which concerns
    numbers of more than 640 digits only; what [parse_content_range] does
    under that limit is [parse_content_range_under_limit]. *)

From Stdlib Require Import ZArith QArith Bool List Lia Ascii String DecimalString.
From Stdlib Require Import DecimalPos.
From stdpp Require Import gmap strings.

Local Open Scope string_scope.
Local Open Scope Z_scope.

(** ** Exceptions *)

(** The three messages with which [parse_content_range] raises. *)
Inductive content_range_failure :=
| InvalidFormat      (* 'Invalid Content-Range format %r' *)
| InvalidReturned    (* 'Invalid Content-Range returned: %r' *)
| UnexpectedReturned (* 'Unexpected Content-Range returned (%r) ...' *).

Inductive exn :=
| ContentRangeError (why : content_range_failure)
| AssertionError
| AttributeError
| TypeError
| ZeroDivisionError
| OverflowError
| IndexError
| ValueError
| OSError.

Inductive result (A : Type) :=
| Ok (a : A)
| Raise (e : exn).

Arguments Ok {A} a.
Arguments Raise {A} e.

Definition bind {A B} (r : result A) (k : A -> result B) : result B :=
  match r with
  | Ok a => k a
  | Raise e => Raise e
  end.

Notation "x <- r ;; k" := (bind r (fun x => k))
  (at level 100, r at next level, right associativity).

(** ** Text helpers *)

Module Text.

Definition dquote : ascii := ascii_of_nat 34.
Definition newline : ascii := ascii_of_nat 10.

(** [\d] of a [str] pattern, on the characters below 256: the ten digits. *)
Definition is_digit (c : ascii) : bool :=
  ((48 <=? nat_of_ascii c) && (nat_of_ascii c <=? 57))%nat.

(** [\s] of a [str] pattern, on the characters below 256: tab, line feed,
    vertical tab, form feed and carriage return (9 to 13), the four
    separators (28 to 31), the space (32), next line (133) and the
    no-break space (160). [\S] is any other character. *)
Definition is_space (c : ascii) : bool :=
  let n := nat_of_ascii c in
  (((9 <=? n) && (n <=? 13)) || ((28 <=? n) && (n <=? 32))
   || (n =? 133) || (n =? 160))%nat.

(** [[a-zA-Z0-9._-]] *)
Definition is_name_char (c : ascii) : bool :=
  let n := nat_of_ascii c in
  (((97 <=? n) && (n <=? 122)) || ((65 <=? n) && (n <=? 90))
   || ((48 <=? n) && (n <=? 57))
   || (n =? 46) || (n =? 95) || (n =? 45))%nat.

Fixpoint all_chars (p : ascii -> bool) (s : string) : bool :=
  match s with
  | EmptyString => true
  | String c s' => p c && all_chars p s'
  end.

Definition is_empty (s : string) : bool :=
  match s with
  | EmptyString => true
  | String _ _ => false
  end.

(** The longest prefix of [s] whose characters satisfy [p], and the rest:
    what a greedy [p+] consumes when the next pattern item cannot start
    with a [p] character. *)
Fixpoint span (p : ascii -> bool) (s : string) : string * string :=
  match s with
  | EmptyString => (EmptyString, EmptyString)
  | String c s' =>
      if p c
      then let (taken, rest) := span p s' in (String c taken, rest)
      else (EmptyString, s)
  end.

(** [strip_prefix p s] is [Some r] when [s = p ++ r]. *)
Fixpoint strip_prefix (p s : string) : option string :=
  match p with
  | EmptyString => Some s
  | String a p' =>
      match s with
      | EmptyString => None
      | String b s' => if Ascii.eqb a b then strip_prefix p' s' else None
      end
  end.

(** [$] without [re.MULTILINE]: at the end of the text, or just before a
    line feed that ends it. *)
Definition at_dollar (s : string) : bool :=
  match s with
  | EmptyString => true
  | String c EmptyString => Ascii.eqb c newline
  | _ => false
  end.

(** The number a run of digits stands for: what [int(s)] returns when it
    returns. *)
Definition digit_value (c : ascii) : Z := Z.of_nat (nat_of_ascii c) - 48.

Fixpoint int_of_digits_from (acc : Z) (s : string) : Z :=
  match s with
  | EmptyString => acc
  | String c s' => int_of_digits_from (10 * acc + digit_value c) s'
  end.

Definition int_of_digits (s : string) : Z := int_of_digits_from 0 s.

(** [str(n)] and ['%d' % n] for an integer. *)
Definition str_of_Z (n : Z) : string := NilZero.string_of_int (Z.to_int n).

(** The interpreter's limit on the digits of an integer that is read from
    text or written as text. [limit] is [sys.get_int_max_str_digits()]:
    4300 unless set otherwise, never between 1 and 639, and 0 for no
    limit (as is a Python without the setting); 640 is
    [sys.int_info.str_digits_check_threshold], up to which nothing is
    checked. A run of digits beyond the limit makes the conversion raise
    [ValueError]. *)
Definition beyond_limit (limit : Z) (digits : string) : bool :=
  let n := Z.of_nat (String.length digits) in
  (640 <? n) && (0 <? limit) && (limit <? n).

(** [int(s)] on a run of digits, under the limit. *)
Definition int_under_limit (limit : Z) (s : string) : result Z :=
  if beyond_limit limit s then Raise ValueError else Ok (int_of_digits s).

(** ['%d' % n] under the limit, which counts the digits and not the
    sign. *)
Definition format_under_limit (limit : Z) (n : Z) : result string :=
  if beyond_limit limit (str_of_Z (Z.abs n)) then Raise ValueError
  else Ok (str_of_Z n).

(** [s.lstrip('.')] *)
Fixpoint lstrip_dots (s : string) : string :=
  match s with
  | String c s' => if Ascii.eqb c "."%char then lstrip_dots s' else s
  | EmptyString => EmptyString
  end.

End Text.

(** ** [parse_content_range] *)

(** The named groups of a successful [re.match]; [instance_length] is
    [None] when the [\*] alternative matched. *)
Record content_range_groups := {
  first_byte_pos : string;
  last_byte_pos : string;
  instance_length : option string
}.

(** [re.match('^bytes (?P<first_byte_pos>\d+)-(?P<last_byte_pos>\d+)'
              '/(\*|(?P<instance_length>\d+))$', content_range)] *)
Definition match_content_range (content_range : string)
  : option content_range_groups :=
  match Text.strip_prefix "bytes " content_range with
  | None => None
  | Some s1 =>
      let (first, s2) := Text.span Text.is_digit s1 in
      if Text.is_empty first then None else
      match Text.strip_prefix "-" s2 with
      | None => None
      | Some s3 =>
          let (last, s4) := Text.span Text.is_digit s3 in
          if Text.is_empty last then None else
          match Text.strip_prefix "/" s4 with
          | None => None
          | Some s5 =>
              match Text.strip_prefix "*" s5 with
              | Some s6 =>
                  if Text.at_dollar s6
                  then Some {| first_byte_pos := first;
                               last_byte_pos := last;
                               instance_length := None |}
                  else None
              | None =>
                  let (len, s6) := Text.span Text.is_digit s5 in
                  if Text.is_empty len then None else
                  if Text.at_dollar s6
                  then Some {| first_byte_pos := first;
                               last_byte_pos := last;
                               instance_length := Some len |}
                  else None
              end
          end
      end
  end.

(** The conversions [int(...)] are taken without a limit on the digits of
    an integer in text; [parse_content_range_under_limit] below is the
    function under such a limit. *)
Definition parse_content_range (content_range : string) (resumed_from : Z)
  : result Z :=
  match match_content_range content_range with
  | None => Raise (ContentRangeError InvalidFormat)
  | Some g =>
      let first := Text.int_of_digits (first_byte_pos g) in
      let last := Text.int_of_digits (last_byte_pos g) in
      let length := option_map Text.int_of_digits (instance_length g) in
      if (first >=? last)
         || match length with Some n => n <=? last | None => false end
      then Raise (ContentRangeError InvalidReturned)
      else if negb (first =? resumed_from)
              || match length with
                 | Some n => negb (last + 1 =? n)
                 | None => false
                 end
      then Raise (ContentRangeError UnexpectedReturned)
      else Ok (last + 1)
  end.

(** [parse_content_range] as run by an interpreter that limits the digits
    of an integer in text: each [int(...)] of a group can raise, in the
    order in which they are evaluated, and so can the [%d] in the message
    of the last [ContentRangeError], which is formatted before the
    exception is raised. *)
Definition parse_content_range_under_limit (limit : Z)
    (content_range : string) (resumed_from : Z) : result Z :=
  match match_content_range content_range with
  | None => Raise (ContentRangeError InvalidFormat)
  | Some g =>
      first <- Text.int_under_limit limit (first_byte_pos g) ;;
      last <- Text.int_under_limit limit (last_byte_pos g) ;;
      length <- match instance_length g with
                | Some text =>
                    n <- Text.int_under_limit limit text ;; Ok (Some n)
                | None => Ok None
                end ;;
      if (first >=? last)
         || match length with Some n => n <=? last | None => false end
      then Raise (ContentRangeError InvalidReturned)
      else if negb (first =? resumed_from)
              || match length with
                 | Some n => negb (last + 1 =? n)
                 | None => false
                 end
      then _ <- Text.format_under_limit limit resumed_from ;;
           Raise (ContentRangeError UnexpectedReturned)
      else Ok (last + 1)
  end.

(** ** File names *)

(** [\S] *)
Definition not_space (c : ascii) : bool := negb (Text.is_space c).

(** [re.search('filename=(\S+)', s)], group 1: the leftmost place where
    [filename=] is followed by a character that is not white space, and
    the longest run of such characters from there. *)
Definition filename_token_here (s : string) : option string :=
  match Text.strip_prefix "filename=" s with
  | Some r =>
      let (token, _) := Text.span not_space r in
      if Text.is_empty token then None else Some token
  | None => None
  end.

Fixpoint search_filename (s : string) : option string :=
  match filename_token_here s with
  | Some token => Some token
  | None =>
      match s with
      | EmptyString => None
      | String _ s' => search_filename s'
      end
  end.

(** [re.match('^[a-zA-Z0-9._-]+$', fn)] as a truth value. *)
Definition match_plain_name (fn : string) : bool :=
  let (body, rest) := Text.span Text.is_name_char fn in
  negb (Text.is_empty body) && Text.at_dollar rest.

(** Returns [None] where the Python function falls off its end. *)
Definition filename_from_content_disposition (content_disposition : string)
  : option string :=
  match search_filename content_disposition with
  | Some group1 =>
      let fn := Text.lstrip_dots group1 in
      if match_plain_name fn then Some fn else None
  | None => None
  end.

(** The name probed at [attempt]: [fn + suffix]. *)
Definition probe_name (fn : string) (attempt : Z) : string :=
  fn ++ (if 0 <? attempt then "-" ++ Text.str_of_Z attempt else "").

(** The [while True] loop of [get_unique_filename], one unit of fuel for
    each pass; [None] when the fuel is used up before the loop returns. *)
Fixpoint get_unique_filename_loop (fuel : nat) (fn : string)
    (exists_ : string -> bool) (attempt : Z) : option string :=
  match fuel with
  | O => None
  | S fuel' =>
      if negb (exists_ (probe_name fn attempt))
      then Some (probe_name fn attempt)
      else get_unique_filename_loop fuel' fn exists_ (attempt + 1)
  end.

Definition get_unique_filename (fuel : nat) (fn : string)
    (exists_ : string -> bool) : option string :=
  get_unique_filename_loop fuel fn exists_ 0.

(** ** Python truth values

    [a and b] yields [a] when [a] is falsy and [b] otherwise, so a chain
    of [and] can yield [False], [None] or [0]; [truthy] is what an [if]
    makes of the value. *)
Inductive pyval :=
| PyBool (b : bool)
| PyNone
| PyInt (n : Z).

Definition truthy (v : pyval) : bool :=
  match v with
  | PyBool b => b
  | PyNone => false
  | PyInt n => negb (n =? 0)
  end.

Definition py_and (a b : pyval) : pyval := if truthy a then b else a.

Definition py_optional_int (n : option Z) : pyval :=
  match n with
  | Some n => PyInt n
  | None => PyNone
  end.

(** True division; dividing by zero raises. *)
Definition py_div (a b : Q) : result Q :=
  if Qeq_bool b 0 then Raise ZeroDivisionError else Ok (a / b)%Q.

(** [int(x)] of a float: rounds toward zero. *)
Definition py_int_of_float (x : Q) : Z := Z.quot (Qnum x) (Z.pos (Qden x)).

(** [total - n] where [total] may be [None]. *)
Definition py_sub_optional (total : option Z) (n : Z) : result Z :=
  match total with
  | Some t => Ok (t - n)
  | None => Raise TypeError
  end.

(** [a - b] on clock readings that may be [None]. *)
Definition py_sub_times (a b : option Q) : result Q :=
  match a, b with
  | Some a, Some b => Ok (a - b)%Q
  | _, _ => Raise TypeError
  end.

(** [total != n] where [total] may be [None]. *)
Definition py_ne_optional (total : option Z) (n : Z) : bool :=
  match total with
  | Some t => negb (t =? n)
  | None => true
  end.

(** The truth value of a clock reading that may be [None]. *)
Definition truthy_time (t : option Q) : bool :=
  match t with
  | Some t => negb (Qeq_bool t 0)
  | None => false
  end.

(** ** Constants *)

Definition PARTIAL_CONTENT : Z := 206.
Definition CLEAR_LINE : string :=
  String (ascii_of_nat 13) (String (ascii_of_nat 27) "[K").
Definition SPINNER : string := "|/-\".

(** ** Objects *)

(** A file object: its [name], its [closed] flag, and whether [seek] and
    [truncate] work on it (they raise [IOError] on a stream such as
    standard output). *)
Record File := {
  name : string;
  closed : bool;
  seekable : bool
}.

(** The files on disk and their sizes in bytes: what [os.path.exists],
    [os.path.getsize], [open] and [truncate] see and change. *)
Abbreviation Disk := (gmap string Z).

Record Progress := {
  downloaded : Z;
  total_size : option Z;
  resumed_from : Z;
  total_size_humanized : string;
  time_started : option Q;
  time_finished : option Q
}.

(** [Progress()] *)
Definition Progress_init : Progress := {|
  downloaded := 0;
  total_size := None;
  resumed_from := 0;
  total_size_humanized := "?";
  time_started := None;
  time_finished := None
|}.

(** The reporter's own attributes. Its [progress] attribute is the very
    object the [Download] holds, so the methods below take that object as
    an argument instead of a copy stored here. [output] is the text
    written to the progress file so far, oldest first. *)
Record ProgressReporter := {
  output : list string;
  _prev_bytes : Z;
  _prev_time : Q;
  _spinner_pos : nat;
  _tick : Q;
  _update_interval : Q;
  _status_line : string
}.

(** [ProgressReporter(progress, output)] constructed when [time()] reads
    [now], on a progress file that already holds [written]. *)
Definition ProgressReporter_init (written : list string) (now : Q)
  : ProgressReporter := {|
  output := written;
  _prev_bytes := 0;
  _prev_time := now;
  _spinner_pos := 0;
  _tick := 1 # 10;
  _update_interval := 1;
  _status_line := ""
|}.

Record Download := {
  _output_file : option File;
  _resume : bool;
  _resumed_from : Z;
  _progress : Progress;
  _progress_reporter : ProgressReporter
}.

(** [Download(output_file, resume, progress_file)] *)
Definition Download_init (output_file : option File) (resume : bool)
    (written : list string) (now : Q) : Download := {|
  _output_file := output_file;
  _resume := resume;
  _resumed_from := 0;
  _progress := Progress_init;
  _progress_reporter := ProgressReporter_init written now
|}.

(** The response object as [start] reads it. *)
Record Response := {
  status_code : Z;
  headers : gmap string string;
  url : string
}.

(** ** [filename_from_url] helpers *)

(** [s.rstrip('/')] *)
Fixpoint rstrip_slashes (s : string) : string :=
  match s with
  | EmptyString => EmptyString
  | String c s' =>
      let r := rstrip_slashes s' in
      if Text.is_empty r && Ascii.eqb c "/"%char then EmptyString
      else String c r
  end.

(** [os.path.basename(s)]: what follows the last slash. *)
Fixpoint basename_from (seen s : string) : string :=
  match s with
  | EmptyString => seen
  | String c s' =>
      if Ascii.eqb c "/"%char then basename_from EmptyString s'
      else basename_from (seen ++ String c EmptyString) s'
  end.

Definition basename (s : string) : string := basename_from EmptyString s.

(** ['.' in s] *)
Fixpoint has_dot (s : string) : bool :=
  match s with
  | EmptyString => false
  | String c s' => Ascii.eqb c "."%char || has_dot s'
  end.

(** [s.split(';')[0]] *)
Definition before_semicolon (s : string) : string :=
  fst (Text.span (fun c => negb (Ascii.eqb c ";"%char)) s).

(** Plain stand-ins for the functions the module imports, to run the
    definitions below on concrete inputs. *)
Module Sample.

Definition humanize_bytes (n : Q) : string :=
  Text.str_of_Z (py_int_of_float n) ++ " B".

Definition format_float (x : Q) : string :=
  Text.str_of_Z (py_int_of_float x).

Definition str_timedelta (n : Z) : result string :=
  if Z.abs n <? 86400 * 1000000000
  then Ok (Text.str_of_Z n ++ "s")
  else Raise OverflowError.

Definition int_of_text (s : string) : option Z :=
  if negb (Text.is_empty s) && Text.all_chars Text.is_digit s
  then Some (Text.int_of_digits s)
  else None.

End Sample.

Section Downloads.

(** The functions this module calls and does not define. [humanize_bytes]
    (httpie/utils.py) renders a number of bytes in human units; the two
    formatters are the float conversions of the templates; [str_timedelta]
    is [str(timedelta(seconds=n))], which raises for a span out of range;
    [int_of_text] is [int(s)] on arbitrary text, [None] for [ValueError];
    [urlsplit_path] is [urlsplit(url).path]; [guess_extension] is
    [mimetypes.guess_extension]. *)
Variable humanize_bytes : Q -> string.
Variable format_percentage : Q -> string. (* {percentage: 6.2f} *)
Variable format_seconds : Q -> string.    (* {time:0.5f} *)
Variable str_timedelta : Z -> result string.
Variable int_of_text : string -> option Z.
Variable urlsplit_path : string -> string.
Variable guess_extension : string -> option string.

(** Modelled from the spec: [humanize_bytes], whose source is not part of
    this module. The spec has it turn a byte count into human units and has
    an unknown size shown by a placeholder instead, so it is a function of
    numbers only: handed [None] it has no number to compare or divide and
    raises [TypeError]. *)
Definition humanize_optional_bytes (n : option Z) : result string :=
  match n with
  | Some n => Ok (humanize_bytes (inject_Z n))
  | None => Raise TypeError
  end.

Definition filename_from_url (url : string) (content_type : option string)
  : string :=
  let fn := rstrip_slashes (urlsplit_path url) in
  let fn := if Text.is_empty fn then "index" else basename fn in
  match content_type with
  | Some content_type =>
      if negb (has_dot fn) && negb (Text.is_empty content_type) then
        let content_type := before_semicolon content_type in
        let ext := if String.eqb content_type "text/plain"
                   then Some ".txt"
                   else guess_extension content_type in
        match ext with
        | Some ext => if Text.is_empty ext then fn else fn ++ ext
        | None => fn
        end
      else fn
  | None => fn
  end.

(** *** [Progress]

    Every method asserts before it assigns, so a raised [AssertionError]
    leaves the object as it was: the methods return the new object, or
    raise. [now] is what [time()] reads during the call. *)

Definition started (now : Q) (from : Z) (total : option Z)
    (self : Progress) : result Progress :=
  match time_started self with
  | Some _ => Raise AssertionError
  | None =>
      Ok {| downloaded := from;
            total_size :=
              match total with
              | Some n => Some n
              | None => total_size self
              end;
            resumed_from := from;
            total_size_humanized :=
              match total with
              | Some n => humanize_bytes (inject_Z n)
              | None => total_size_humanized self
              end;
            time_started := Some now;
            time_finished := time_finished self |}
  end.

Definition chunk_downloaded (size : Z) (self : Progress) : result Progress :=
  match time_finished self with
  | Some _ => Raise AssertionError
  | None =>
      Ok {| downloaded := downloaded self + size;
            total_size := total_size self;
            resumed_from := resumed_from self;
            total_size_humanized := total_size_humanized self;
            time_started := time_started self;
            time_finished := time_finished self |}
  end.

Definition has_finished (self : Progress) : bool :=
  match time_finished self with
  | Some _ => true
  | None => false
  end.

Definition finished (now : Q) (self : Progress) : result Progress :=
  match time_started self with
  | None => Raise AssertionError
  | Some _ =>
      match time_finished self with
      | Some _ => Raise AssertionError
      | None =>
          Ok {| downloaded := downloaded self;
                total_size := total_size self;
                resumed_from := resumed_from self;
                total_size_humanized := total_size_humanized self;
                time_started := time_started self;
                time_finished := Some now |}
      end
  end.

(** One [chunk_downloaded] for each size, in order. *)
Fixpoint chunks_downloaded (sizes : list Z) (self : Progress)
  : result Progress :=
  match sizes with
  | nil => Ok self
  | size :: sizes' =>
      self' <- chunk_downloaded size self ;;
      chunks_downloaded sizes' self'
  end.

(** *** [ProgressReporter]

    A method returns how it ended together with the reporter as the call
    left it: text written before an exception stays written. *)

Definition write (text : string) (self : ProgressReporter)
  : ProgressReporter :=
  {| output := (output self ++ text :: nil)%list;
     _prev_bytes := _prev_bytes self;
     _prev_time := _prev_time self;
     _spinner_pos := _spinner_pos self;
     _tick := _tick self;
     _update_interval := _update_interval self;
     _status_line := _status_line self |}.

(** [PROGRESS.format(...)] *)
Definition PROGRESS (percentage : Q) (downloaded total speed eta : string)
  : string :=
  format_percentage percentage ++ "% (" ++ downloaded ++ ") of " ++ total
  ++ " (" ++ speed ++ "/s) ETA " ++ eta.

(** [PROGRESS_NO_CONTENT_LENGTH.format(...)] *)
Definition PROGRESS_NO_CONTENT_LENGTH (downloaded speed eta : string)
  : string :=
  downloaded ++ " (" ++ speed ++ "/s) ETA " ++ eta.

(** [SUMMARY.format(...)] *)
Definition SUMMARY (downloaded total : string) (time : Q) (speed : string)
  : string :=
  "Done. " ++ downloaded ++ " of " ++ total ++ " in " ++ format_seconds time
  ++ "s (" ++ speed ++ "/s)" ++ String Text.newline "".

(** The body of the [try] in [report_speed]: [speed] and [eta]. *)
Definition speed_and_eta (now : Q) (progress : Progress)
    (self : ProgressReporter) : result (Q * string) :=
  let downloaded := downloaded progress in
  speed <- py_div (inject_Z (downloaded - _prev_bytes self))
                  (now - _prev_time self)%Q ;;
  remaining <- py_sub_optional (total_size progress) downloaded ;;
  seconds <- py_div (inject_Z remaining) speed ;;
  eta <- str_timedelta (py_int_of_float seconds) ;;
  Ok (speed, eta).

(** The [try] with its [except ZeroDivisionError]. *)
Definition speed_and_eta_or_unknown (now : Q) (progress : Progress)
    (self : ProgressReporter) : result (Q * string) :=
  match speed_and_eta now progress self with
  | Raise ZeroDivisionError => Ok (0%Q, "?")
  | other => other
  end.

(** The status line computed when the update interval has passed; the
    template is chosen by the truth value of [total_size]. *)
Definition status_line (now : Q) (progress : Progress)
    (self : ProgressReporter) : result string :=
  let downloaded := downloaded progress in
  let without_total speed eta :=
    PROGRESS_NO_CONTENT_LENGTH
      (humanize_bytes (inject_Z downloaded)) (humanize_bytes speed) eta in
  found <- speed_and_eta_or_unknown now progress self ;;
  let (speed, eta) := found : Q * string in
  Ok match total_size progress with
     | Some total =>
         if negb (total =? 0)
         then PROGRESS (inject_Z downloaded / inject_Z total * 100)%Q
                (humanize_bytes (inject_Z downloaded))
                (total_size_humanized progress)
                (humanize_bytes speed) eta
         else without_total speed eta
     | None => without_total speed eta
     end.

(** [SPINNER[pos]] *)
Definition spinner_glyph (pos : nat) : result string :=
  match String.get pos SPINNER with
  | Some c => Ok (String c "")
  | None => Raise IndexError
  end.

(** The assignments that end the refresh of the status line. *)
Definition with_status (line : string) (bytes : Z) (now : Q)
    (self : ProgressReporter) : ProgressReporter :=
  {| output := output self;
     _prev_bytes := bytes;
     _prev_time := now;
     _spinner_pos := _spinner_pos self;
     _tick := _tick self;
     _update_interval := _update_interval self;
     _status_line := line |}.

Definition next_spinner_pos (pos : nat) : nat :=
  if (pos + 1 =? String.length SPINNER)%nat then 0%nat else (pos + 1)%nat.

Definition advance_spinner (self : ProgressReporter) : ProgressReporter :=
  {| output := output self;
     _prev_bytes := _prev_bytes self;
     _prev_time := _prev_time self;
     _spinner_pos := next_spinner_pos (_spinner_pos self);
     _tick := _tick self;
     _update_interval := _update_interval self;
     _status_line := _status_line self |}.

Definition report_speed (now : Q) (progress : Progress)
    (self : ProgressReporter) : result unit * ProgressReporter :=
  let refreshed :=
    if Qle_bool (_update_interval self) (now - _prev_time self)
    then
      line <- status_line now progress self ;;
      Ok (with_status line (downloaded progress) now self)
    else Ok self in
  match refreshed with
  | Raise e => (Raise e, self)
  | Ok self1 =>
      match spinner_glyph (_spinner_pos self1) with
      | Raise e => (Raise e, self1)
      | Ok glyph =>
          (Ok tt,
           advance_spinner
             (write (CLEAR_LINE ++ glyph ++ " " ++ _status_line self1)
                self1))
      end
  end.

Definition sum_up (progress : Progress) (self : ProgressReporter)
  : result unit * ProgressReporter :=
  let actually_downloaded := downloaded progress - resumed_from progress in
  match py_sub_times (time_finished progress) (time_started progress) with
  | Raise e => (Raise e, self)
  | Ok time_taken =>
      let self1 := write CLEAR_LINE self in
      let line :=
        total <- humanize_optional_bytes (total_size progress) ;;
        speed <- py_div (inject_Z actually_downloaded) time_taken ;;
        Ok (SUMMARY (humanize_bytes (inject_Z actually_downloaded)) total
              time_taken (humanize_bytes speed)) in
      match line with
      | Raise e => (Raise e, self1)
      | Ok line => (Ok tt, write line self1)
      end
  end.

(** One wake of the reporter. The value tells whether the next wake was
    scheduled ([threading.Timer(self._tick, self.report).start()]). *)
Definition report (now : Q) (progress : Progress) (self : ProgressReporter)
  : result bool * ProgressReporter :=
  if has_finished progress
  then let (r, self') := sum_up progress self in
       (_ <- r ;; Ok false, self')
  else let (r, self') := report_speed now progress self in
       (_ <- r ;; Ok true, self').

(** *** [Download]

    A method returns how it ended together with the objects as the call
    left them. *)

Definition with_output_file (f : File) (self : Download) : Download :=
  {| _output_file := Some f;
     _resume := _resume self;
     _resumed_from := _resumed_from self;
     _progress := _progress self;
     _progress_reporter := _progress_reporter self |}.

Definition with_resumed_from (n : Z) (self : Download) : Download :=
  {| _output_file := _output_file self;
     _resume := _resume self;
     _resumed_from := n;
     _progress := _progress self;
     _progress_reporter := _progress_reporter self |}.

Definition with_progress (p : Progress) (self : Download) : Download :=
  {| _output_file := _output_file self;
     _resume := _resume self;
     _resumed_from := _resumed_from self;
     _progress := p;
     _progress_reporter := _progress_reporter self |}.

Definition with_progress_reporter (r : ProgressReporter) (self : Download)
  : Download :=
  {| _output_file := _output_file self;
     _resume := _resume self;
     _resumed_from := _resumed_from self;
     _progress := _progress self;
     _progress_reporter := r |}.

(** [os.path.getsize(path)] *)
Definition getsize (disk : Disk) (path : string) : result Z :=
  match disk !! path with
  | Some n => Ok n
  | None => Raise OSError
  end.

(** [os.path.exists] *)
Definition path_exists (disk : Disk) (path : string) : bool :=
  match disk !! path with
  | Some _ => true
  | None => false
  end.

Definition pre_request (disk : Disk)
    (request_headers : gmap string (option string)) (self : Download)
  : result unit * gmap string (option string) * Download :=
  let request_headers := <["Accept-Encoding" := None]> request_headers in
  if _resume self then
    match _output_file self with
    | None => (Raise AttributeError, request_headers, self)
    | Some f =>
        match getsize disk (name f) with
        | Raise e => (Raise e, request_headers, self)
        | Ok bytes_have =>
            if negb (bytes_have =? 0)
            then (Ok tt,
                  <["Range" :=
                      Some ("bytes=" ++ Text.str_of_Z bytes_have ++ "-")]>
                    request_headers,
                  with_resumed_from bytes_have self)
            else (Ok tt, request_headers, self)
        end
    end
  else (Ok tt, request_headers, self).

Definition finish (now : Q) (self : Download) : result unit * Download :=
  match _output_file self with
  | None => (Raise AttributeError, self)
  | Some f =>
      if closed f then (Raise AssertionError, self)
      else
        let self1 :=
          with_output_file
            {| name := name f; closed := true; seekable := seekable f |}
            self in
        match finished now (_progress self1) with
        | Raise e => (Raise e, self1)
        | Ok p => (Ok tt, with_progress p self1)
        end
  end.

Definition interrupted (self : Download) : result pyval :=
  match _output_file self with
  | None => Raise AttributeError
  | Some f =>
      Ok (py_and (PyBool (closed f))
            (py_and (py_optional_int (total_size (_progress self)))
               (PyBool (py_ne_optional (total_size (_progress self))
                          (downloaded (_progress self))))))
  end.

(** [chunk] is the body data just written: its length is what counts. *)
Definition _on_progress (chunk : string) (self : Download)
  : result unit * Download :=
  match chunk_downloaded (Z.of_nat (String.length chunk)) (_progress self) with
  | Raise e => (Raise e, self)
  | Ok p => (Ok tt, with_progress p self)
  end.

(** The branch of [start] taken when an output file was given. It yields
    the total size, the download and the disk as it leaves them. *)
Definition start_given_file (f : File) (response : Response)
    (total : option Z) (disk : Disk) (self : Download)
  : result (option Z) * Download * Disk :=
  if _resume self && (status_code response =? PARTIAL_CONTENT) then
    match headers response !! "Content-Range" with
    | Some content_range =>
        if Text.is_empty content_range then (Ok total, self, disk)
        else
          match parse_content_range content_range (_resumed_from self) with
          | Raise e => (Raise e, self, disk)
          | Ok n => (Ok (Some n), self, disk)
          end
    | None => (Ok total, self, disk)
    end
  else
    let self1 := with_resumed_from 0 self in
    if closed f then (Raise ValueError, self1, disk)
    else if seekable f then (Ok total, self1, <[name f := 0]> disk)
    else (Ok total, self1, disk) (* except IOError: pass *).

(** The branch of [start] that picks a name and opens the file for
    appending, which creates it; [None] when the search for a free name
    uses up the fuel. *)
Definition start_pick_file (fuel : nat) (response : Response) (disk : Disk)
    (self : Download) : option (File * Download * Disk) :=
  let fn :=
    match headers response !! "Content-Disposition" with
    | Some content_disposition =>
        filename_from_content_disposition content_disposition
    | None => None
    end in
  let fn :=
    match fn with
    | Some fn => fn
    | None =>
        filename_from_url (url response)
          (headers response !! "Content-Type")
    end in
  match get_unique_filename fuel fn (path_exists disk) with
  | None => None
  | Some path =>
      let f := {| name := path; closed := false; seekable := true |} in
      Some (f, with_output_file f self, <[path := 0]> disk)
  end.

(** The rest of [start], from [self._progress.started(...)] on, with the
    output file [f] in place. The stream it returns beside the file wraps
    the body of the response with [_on_progress] as its callback and holds
    no state of its own: the file stands for the pair. *)
Definition start_streaming (t_started t_report : Q) (f : File)
    (total : option Z) (self : Download) : result File * Download :=
  match started t_started (_resumed_from self) total (_progress self) with
  | Raise e => (Raise e, self)
  | Ok p =>
      let self1 := with_progress p self in
      let saving :=
        "Saving to " ++ String Text.dquote (name f)
        ++ String Text.dquote (String Text.newline "") in
      let (r, reporter) :=
        report t_report p (write saving (_progress_reporter self1)) in
      (_ <- r ;; Ok f, with_progress_reporter reporter self1)
  end.

(** [start]: [t_started] and [t_report] are what [time()] reads in
    [Progress.started] and in the first report. The outer [option] is
    [None] only when the search for a free file name uses up the fuel. *)
Definition start (fuel : nat) (t_started t_report : Q)
    (response : Response) (disk : Disk) (self : Download)
  : option (result File * Download * Disk) :=
  if truthy_time (time_started (_progress self))
  then Some (Raise AssertionError, self, disk)
  else
    let total :=
      match headers response !! "Content-Length" with
      | Some text => int_of_text text
      | None => None
      end in
    match _output_file self with
    | Some f =>
        match start_given_file f response total disk self with
        | (Raise e, self1, disk1) => Some (Raise e, self1, disk1)
        | (Ok total1, self1, disk1) =>
            let (r, self2) :=
              start_streaming t_started t_report f total1 self1 in
            Some (r, self2, disk1)
        end
    | None =>
        match start_pick_file fuel response disk self with
        | None => None
        | Some (f, self1, disk1) =>
            let (r, self2) :=
              start_streaming t_started t_report f total self1 in
            Some (r, self2, disk1)
        end
    end.

(** ** Statements in the words of the specification *)

(** The property as the specification words it: true exactly when the
    output file is closed, a total size is known, and it differs from the
    number of bytes downloaded. *)
Definition interrupted_when_closed_known_and_short (d : Download) : Prop :=
  (exists v, interrupted d = Ok v /\ truthy v = true) <->
  (exists f total,
      _output_file d = Some f /\ closed f = true /\
      total_size (_progress d) = Some total /\
      downloaded (_progress d) <> total).

(** The precondition as the claim words it: with [resume] set, an output
    file given at construction is enough for [pre_request] to return. *)
Definition pre_request_returns_given_output_file : Prop :=
  forall (disk : Disk) (request_headers : gmap string (option string))
         (self : Download) (f : File),
    _resume self = true ->
    _output_file self = Some f ->
    exists headers' self',
      pre_request disk request_headers self = (Ok tt, headers', self').

(** [sum(sizes)] *)
Definition sum_sizes (sizes : list Z) : Z := fold_right Z.add 0 sizes.

(** The [try] of [report_speed] comes to divide by zero: in the first
    division when no time has passed since the previous sample; in the
    second when the subtraction before it went through (the total size is
    a number) and the speed just computed is zero. *)
Definition divides_by_zero (now : Q) (progress : Progress)
    (self : ProgressReporter) : Prop :=
  (now - _prev_time self == 0)%Q
  \/ (exists total,
        total_size progress = Some total
        /\ (inject_Z (downloaded progress - _prev_bytes self)
            / (now - _prev_time self) == 0)%Q).

(** The two cases the specification names, on a wake that refreshes the
    status line: no time has passed since the previous sample; or time
    has passed and the speed computed from it is zero. *)
Definition no_time_elapsed (now : Q) (self : ProgressReporter) : Prop :=
  (now - _prev_time self == 0)%Q.

Definition speed_is_zero (now : Q) (progress : Progress)
    (self : ProgressReporter) : Prop :=
  ~ (now - _prev_time self == 0)%Q
  /\ (inject_Z (downloaded progress - _prev_bytes self)
      / (now - _prev_time self) == 0)%Q.

(** The status line with speed [0] and the placeholder for the time
    left: what the [except ZeroDivisionError] branch leads to. *)
Definition status_line_unknown_speed (progress : Progress) : string :=
  match total_size progress with
  | Some total =>
      if negb (total =? 0)
      then PROGRESS
             (inject_Z (downloaded progress) / inject_Z total * 100)%Q
             (humanize_bytes (inject_Z (downloaded progress)))
             (total_size_humanized progress)
             (humanize_bytes 0) "?"
      else PROGRESS_NO_CONTENT_LENGTH
             (humanize_bytes (inject_Z (downloaded progress)))
             (humanize_bytes 0) "?"
  | None =>
      PROGRESS_NO_CONTENT_LENGTH
        (humanize_bytes (inject_Z (downloaded progress)))
        (humanize_bytes 0) "?"
  end.

(** Where [$] matches: nothing left, or one final line feed. *)
Definition ends_text (tail : string) : Prop :=
  tail = EmptyString \/ tail = String Text.newline EmptyString.

(** A text of the form [bytes <first>-<last>/<length or *>], then [tail]. *)
Definition content_range_text (g : content_range_groups) (tail : string)
  : string :=
  "bytes " ++ first_byte_pos g ++ "-" ++ last_byte_pos g ++ "/"
  ++ match instance_length g with
     | Some len => len
     | None => "*"
     end ++ tail.

(** A run of one or more decimal digits. *)
Definition is_number (s : string) : Prop :=
  s <> EmptyString /\ Text.all_chars Text.is_digit s = true.

(** [c in s] *)
Fixpoint has_char (c : ascii) (s : string) : bool :=
  match s with
  | EmptyString => false
  | String c' s' => Ascii.eqb c c' || has_char c s'
  end.

(** What follows a token: nothing, or white space. *)
Definition token_ends (rest : string) : Prop :=
  match rest with
  | EmptyString => True
  | String c _ => Text.is_space c = true
  end.

(** [token] is the run of characters other than white space that follows
    the leftmost [filename=] of [header] which has such a character after
    it. *)
Definition is_filename_token (header token : string) : Prop :=
  exists before rest,
    header = before ++ "filename=" ++ token ++ rest
    /\ token <> EmptyString
    /\ Text.all_chars not_space token = true
    /\ token_ends rest
    /\ forall before' c rest',
         header = before' ++ "filename=" ++ String c rest' ->
         (String.length before' < String.length before)%nat ->
         Text.is_space c = true.

(** ** A whole transfer *)

(** A chunk of [n] bytes of body data. *)
Fixpoint body_chunk (n : nat) : string :=
  match n with
  | O => EmptyString
  | S n' => String "x" (body_chunk n')
  end.

(** The per-chunk callback applied to the chunks in order, as the copy
    loop drives it. *)
Fixpoint copy_chunks (chunks : list string) (self : Download)
  : result unit * Download :=
  match chunks with
  | nil => (Ok tt, self)
  | chunk :: chunks' =>
      match _on_progress chunk self with
      | (Raise e, self') => (Raise e, self')
      | (Ok _, self') => copy_chunks chunks' self'
      end
  end.

(** One transfer from [start] to [finish], and what [interrupted] says
    afterwards. *)
Definition transfer (fuel : nat) (t_started t_report t_finished : Q)
    (response : Response) (disk : Disk) (chunks : list string)
    (self : Download) : option (result pyval) :=
  match start fuel t_started t_report response disk self with
  | None => None
  | Some (Raise e, _, _) => Some (Raise e)
  | Some (Ok _, self1, _) =>
      match copy_chunks chunks self1 with
      | (Raise e, _) => Some (Raise e)
      | (Ok _, self2) =>
          match finish t_finished self2 with
          | (Raise e, _) => Some (Raise e)
          | (Ok _, self3) => Some (interrupted self3)
          end
      end
  end.

(** ** Sample objects *)

(** A download that announced a length of zero and then received 5 bytes,
    its file closed. *)
Definition zero_length_download : Download := {|
  _output_file := Some {| name := "out"; closed := true; seekable := true |};
  _resume := false;
  _resumed_from := 0;
  _progress := {| downloaded := 5;
                  total_size := Some 0;
                  resumed_from := 0;
                  total_size_humanized := "0 B";
                  time_started := Some 10%Q;
                  time_finished := Some 11%Q |};
  _progress_reporter := ProgressReporter_init nil 9
|}.

(** A progress started when the clock read 1. *)
Definition running_progress : Progress := {|
  downloaded := 0;
  total_size := None;
  resumed_from := 0;
  total_size_humanized := "?";
  time_started := Some 1%Q;
  time_finished := None
|}.

(** A finished download resumed at byte 100 that reached byte 1100 ten
    seconds after it started at [T]. *)
Definition resumed_progress (total : option Z) (T : Q) : Progress := {|
  downloaded := 1100;
  total_size := total;
  resumed_from := 100;
  total_size_humanized := "?";
  time_started := Some T;
  time_finished := Some (T + 10)%Q
|}.

(** A download of 1100 bytes, resumed at byte 100, whose start and finish
    read the same time [T] on the clock. *)
Definition instant_progress (T : Q) : Progress := {|
  downloaded := 1100;
  total_size := Some 1100;
  resumed_from := 100;
  total_size_humanized := "1100 B";
  time_started := Some T;
  time_finished := Some T
|}.

(** A running download of unknown length, 8192 bytes in, started when the
    clock read 100. *)
Definition unknown_length_progress : Progress := {|
  downloaded := 8192;
  total_size := None;
  resumed_from := 0;
  total_size_humanized := "?";
  time_started := Some 100%Q;
  time_finished := None
|}.

(** A download of 1000 bytes that has received nothing yet. *)
Definition stalled_progress : Progress := {|
  downloaded := 0;
  total_size := Some 1000;
  resumed_from := 0;
  total_size_humanized := "1000 B";
  time_started := Some 99%Q;
  time_finished := None
|}.

(** A reporter that refreshes the status line on every wake: its update
    interval is zero. *)
Definition eager_reporter (now : Q) : ProgressReporter := {|
  output := nil;
  _prev_bytes := 0;
  _prev_time := now;
  _spinner_pos := 0;
  _tick := 1 # 10;
  _update_interval := 0;
  _status_line := ""
|}.

(** An open output file left by an earlier run. *)
Definition partial_file : File :=
  {| name := "part.bin"; closed := false; seekable := true |}.

(** A plain answer with no headers. *)
Definition bare_response : Response :=
  {| status_code := 200; headers := ∅; url := "http://x/" |}.

(** An answer that announces 1000 bytes. *)
Definition response_of_1000_bytes : Response :=
  {| status_code := 200;
     headers := {["Content-Length" := "1000"]};
     url := "http://x/y/archive" |}.

(** The header [attachment; filename=] followed by [.secret] between
    double quotes. *)
Definition quoted_secret_header : string :=
  "attachment; filename="
  ++ String Text.dquote (".secret" ++ String Text.dquote "").

(** An existence check that reports [a] and [a-1] as taken. *)
Definition a_and_a1_taken (path : string) : bool :=
  String.eqb path "a" || String.eqb path "a-1".

(** ** Further statements and objects *)

(** The header a server writes for the bytes [first] to [last] of a body
    of [length] bytes, or of a body whose length it does not tell. *)
Definition content_range_header (first last : Z) (length : option Z)
  : string :=
  "bytes " ++ Text.str_of_Z first ++ "-" ++ Text.str_of_Z last ++ "/"
  ++ match length with
     | Some n => Text.str_of_Z n
     | None => "*"
     end.

(** [digits] is a run of digits that stands in [text]. *)
Definition number_in (text digits : string) : Prop :=
  is_number digits
  /\ exists before after, text = before ++ digits ++ after.

(** A header whose last position has 4301 digits. *)
Fixpoint nines (n : nat) : string :=
  match n with
  | O => EmptyString
  | S n' => String "9" (nines n')
  end.

Definition overlong_header : string := "bytes 0-" ++ nines 4301 ++ "/*".

(** The name [start] goes by when no output file was given: the one of
    the [Content-Disposition] header if it yields one, else the one made
    from the address and the content type. *)
Definition suggested_filename (response : Response) : string :=
  match match headers response !! "Content-Disposition" with
        | Some content_disposition =>
            filename_from_content_disposition content_disposition
        | None => None
        end with
  | Some fn => fn
  | None =>
      filename_from_url (url response) (headers response !! "Content-Type")
  end.

(** The number of bytes in the chunks. *)
Definition received (chunks : list string) : Z :=
  sum_sizes (map (fun chunk => Z.of_nat (String.length chunk)) chunks).

(** The [Content-Length] of the answer as [start] reads it. *)
Definition declared_length (response : Response) : option Z :=
  match headers response !! "Content-Length" with
  | Some text => int_of_text text
  | None => None
  end.

(** A call of one of the methods of [Progress]. *)
Inductive progress_call :=
| CallStarted (now : Q) (from : Z) (total : option Z)
| CallChunkDownloaded (size : Z)
| CallFinished (now : Q).

Definition call_progress (c : progress_call) (self : Progress)
  : result Progress :=
  match c with
  | CallStarted now from total => started now from total self
  | CallChunkDownloaded size => chunk_downloaded size self
  | CallFinished now => finished now self
  end.

(** The object after a sequence of calls; a call that raises leaves it as
    it was, and the next call finds it so. *)
Fixpoint after_calls (calls : list progress_call) (self : Progress)
  : Progress :=
  match calls with
  | nil => self
  | c :: calls' =>
      match call_progress c self with
      | Ok self' => after_calls calls' self'
      | Raise _ => after_calls calls' self
      end
  end.

(** The numbers a call is given are not negative. *)
Definition call_not_negative (c : progress_call) : Prop :=
  match c with
  | CallStarted _ from _ => 0 <= from
  | CallChunkDownloaded size => 0 <= size
  | CallFinished _ => True
  end.

(** What holds of a [Progress] at all times: see
    [progress_sound_after_calls]. *)
Definition progress_sound (p : Progress) : Prop :=
  (time_finished p <> None -> time_started p <> None)
  /\ ((total_size p = None /\ total_size_humanized p = "?")
      \/ (exists n, total_size p = Some n
                    /\ total_size_humanized p
                       = humanize_bytes (inject_Z n)
                    /\ time_started p <> None)).

(** The glyph drawn at a spinner position. *)
Definition glyph_at (pos : nat) : string :=
  match String.get (pos mod String.length SPINNER) SPINNER with
  | Some c => String c EmptyString
  | None => EmptyString
  end.

(** One wake of [report_speed] for each reading of the clock, as long as
    none raises. *)
Fixpoint wakes (nows : list Q) (progress : Progress)
    (self : ProgressReporter) : result unit * ProgressReporter :=
  match nows with
  | nil => (Ok tt, self)
  | now :: nows' =>
      match report_speed now progress self with
      | (Ok _, self') => wakes nows' progress self'
      | (Raise e, self') => (Raise e, self')
      end
  end.

(** The lines of [count] wakes that redraw [line], the spinner starting at
    [pos]. *)
Fixpoint redrawn (line : string) (pos count : nat) : list string :=
  match count with
  | O => nil
  | S count' =>
      (CLEAR_LINE ++ glyph_at pos ++ " " ++ line)
      :: redrawn line (S pos) count'
  end.

(** [s.endswith('/')] *)
Fixpoint ends_with_slash (s : string) : bool :=
  match s with
  | EmptyString => false
  | String c s' =>
      if Text.is_empty s' then Ascii.eqb c "/"%char else ends_with_slash s'
  end.

(** [s.startswith('.')] *)
Definition starts_with_dot (s : string) : bool :=
  match s with
  | String c _ => Ascii.eqb c "."%char
  | EmptyString => false
  end.

(** The name [filename_from_url] takes from the address, before any
    extension is added. *)
Definition url_basename (url : string) : string :=
  let fn := rstrip_slashes (urlsplit_path url) in
  if Text.is_empty fn then "index" else basename fn.

(** The line [start] writes to the progress file before its first
    report. *)
Definition saving_to (f : File) : string :=
  "Saving to " ++ String Text.dquote (name f)
  ++ String Text.dquote (String Text.newline "").

(** Standard output as an output file: open, and unable to seek. *)
Definition standard_output : File :=
  {| name := "<stdout>"; closed := false; seekable := false |}.

(** A disk that holds the partial file, 500 bytes long. *)
Definition disk_with_part : Disk := {["part.bin" := 500]}.

(** The answer to a request for the bytes from 500 on. *)
Definition partial_response : Response :=
  {| status_code := 206;
     headers :=
       {["Content-Range" := content_range_header 500 999 (Some 1000)]};
     url := "http://x/part.bin" |}.

(** A download that resumes into the partial file, as [pre_request]
    leaves it. *)
Definition resuming_download : Download :=
  with_resumed_from 500 (Download_init (Some partial_file) true nil 0).

(** An answer that suggests a file name, and a disk that holds a file of
    that name. *)
Definition named_response : Response :=
  {| status_code := 200;
     headers :=
       {["Content-Disposition" := "attachment; filename=report.tar.gz"]};
     url := "http://x/download" |}.

Definition disk_with_report : Disk := {["report.tar.gz" := 7]}.

(** * Properties *)

(** ** Text *)

Lemma append_empty (s : string) : s ++ EmptyString = s.
Proof.
  induction s as [|c s IH]; [reflexivity|].
  change (String c (s ++ EmptyString) = String c s). rewrite IH. reflexivity.
Qed.

Lemma append_assoc (a b c : string) : (a ++ b) ++ c = a ++ b ++ c.
Proof.
  induction a as [|x a IH]; [reflexivity|].
  change (String x ((a ++ b) ++ c) = String x (a ++ b ++ c)).
  rewrite IH. reflexivity.
Qed.

Lemma span_spec (p : ascii -> bool) (s : string) :
  forall taken rest,
    Text.span p s = (taken, rest) ->
    s = taken ++ rest
    /\ Text.all_chars p taken = true
    /\ match rest with
       | EmptyString => True
       | String c _ => p c = false
       end.
Proof.
  induction s as [|c s IH]; intros taken rest; simpl.
  - intros H; inversion H; subst. repeat split.
  - destruct (p c) eqn:Hc.
    + destruct (Text.span p s) as [taken' rest'].
      intros H; inversion H; subst.
      destruct (IH taken' rest eq_refl) as (Hs & Hall & Hrest).
      split; [rewrite Hs at 1; reflexivity|].
      simpl. rewrite Hc, Hall. split; [reflexivity | exact Hrest].
    + intros H; inversion H; subst. simpl. repeat split. exact Hc.
Qed.

Lemma has_char_app (c : ascii) (a b : string) :
  has_char c (a ++ b) = has_char c a || has_char c b.
Proof.
  induction a as [|x a IH]; simpl; [reflexivity|].
  rewrite IH. apply orb_assoc.
Qed.

Lemma all_chars_has_char (p : ascii -> bool) (c : ascii) (s : string) :
  Text.all_chars p s = true -> p c = false -> has_char c s = false.
Proof.
  intros Hall Hc. induction s as [|x s IH]; simpl in *; [reflexivity|].
  apply andb_prop in Hall as [Hx Hs].
  rewrite (IH Hs), orb_false_r.
  destruct (Ascii.eqb_spec c x); [congruence | reflexivity].
Qed.

Lemma all_chars_span (p : ascii -> bool) (s : string) :
  Text.all_chars p s = true -> Text.span p s = (s, EmptyString).
Proof.
  induction s as [|c s IH]; simpl; [reflexivity|].
  intros H. apply andb_prop in H as [Hc Hs].
  rewrite Hc, (IH Hs). reflexivity.
Qed.

Lemma strip_prefix_spec (p s r : string) :
  Text.strip_prefix p s = Some r <-> s = p ++ r.
Proof.
  revert s. induction p as [|a p IH]; intros s; simpl.
  - split; [intros H; inversion H; reflexivity | intros ->; reflexivity].
  - destruct s as [|b s].
    + split; [discriminate|]. intros H. discriminate H.
    + destruct (Ascii.eqb_spec a b) as [->|Hne].
      * rewrite IH. change (String b p ++ r) with (String b (p ++ r)).
        split; [intros ->; reflexivity | intros H; inversion H; reflexivity].
      * split; [discriminate|].
        change (String a p ++ r) with (String a (p ++ r)).
        intros H; inversion H; congruence.
Qed.

(** A run of [p] characters followed by nothing, or by a character that
    fails [p], is what [span] takes. *)
Lemma span_complete (p : ascii -> bool) (taken rest : string) :
  Text.all_chars p taken = true ->
  match rest with
  | EmptyString => True
  | String c _ => p c = false
  end ->
  Text.span p (taken ++ rest) = (taken, rest).
Proof.
  intros Hall Hrest. induction taken as [|c taken IH].
  - change (EmptyString ++ rest) with rest.
    destruct rest as [|c rest]; simpl; [reflexivity|].
    rewrite Hrest. reflexivity.
  - simpl in Hall. apply andb_prop in Hall as [Hc Hall].
    change (String c taken ++ rest) with (String c (taken ++ rest)).
    simpl. rewrite Hc, (IH Hall). reflexivity.
Qed.

(** ** [parse_content_range] *)

Lemma is_empty_false (s : string) : Text.is_empty s = false <-> s <> EmptyString.
Proof. destruct s; simpl; split; congruence. Qed.

Lemma at_dollar_ends_text (s : string) :
  Text.at_dollar s = true <-> ends_text s.
Proof.
  unfold ends_text. destruct s as [|c [|c' s]]; simpl.
  - split; auto.
  - rewrite Ascii.eqb_eq. split.
    + intros ->. right; reflexivity.
    + intros [H|H]; [discriminate | inversion H; reflexivity].
  - split; [discriminate|]. intros [H|H]; discriminate.
Qed.

(** The pattern of [parse_content_range] matches exactly the texts
    [bytes <first>-<last>/<length>] and [bytes <first>-<last>/*], each
    number a run of digits, with at most a final line feed; the groups
    are the digit runs. *)
Lemma match_content_range_grammar (content_range : string)
    (g : content_range_groups) :
  match_content_range content_range = Some g <->
  is_number (first_byte_pos g)
  /\ is_number (last_byte_pos g)
  /\ (forall len, instance_length g = Some len -> is_number len)
  /\ exists tail, ends_text tail /\ content_range = content_range_text g tail.
Proof.
  unfold match_content_range, content_range_text, is_number. split.
  - destruct (Text.strip_prefix "bytes " content_range) as [s1|] eqn:E1;
      [|discriminate].
    apply strip_prefix_spec in E1.
    destruct (Text.span Text.is_digit s1) as [first s2] eqn:E2.
    destruct (span_spec _ _ _ _ E2) as (H2 & Hfirst & _).
    destruct (Text.is_empty first) eqn:N1; [discriminate|].
    apply is_empty_false in N1.
    destruct (Text.strip_prefix "-" s2) as [s3|] eqn:E3; [|discriminate].
    apply strip_prefix_spec in E3.
    destruct (Text.span Text.is_digit s3) as [last s4] eqn:E4.
    destruct (span_spec _ _ _ _ E4) as (H4 & Hlast & _).
    destruct (Text.is_empty last) eqn:N2; [discriminate|].
    apply is_empty_false in N2.
    destruct (Text.strip_prefix "/" s4) as [s5|] eqn:E5; [|discriminate].
    apply strip_prefix_spec in E5.
    destruct (Text.strip_prefix "*" s5) as [s6|] eqn:E6.
    + apply strip_prefix_spec in E6.
      destruct (Text.at_dollar s6) eqn:D; [|discriminate].
      apply at_dollar_ends_text in D.
      intros H; inversion H; subst g; simpl.
      split; [split; assumption|]. split; [split; assumption|]. split.
      * intros len' Hl; discriminate Hl.
      * exists s6. split; [exact D|]. congruence.
    + destruct (Text.span Text.is_digit s5) as [len s6] eqn:E7.
      destruct (span_spec _ _ _ _ E7) as (H7 & Hlen & _).
      destruct (Text.is_empty len) eqn:N3; [discriminate|].
      apply is_empty_false in N3.
      destruct (Text.at_dollar s6) eqn:D; [|discriminate].
      apply at_dollar_ends_text in D.
      intros H; inversion H; subst g; simpl.
      split; [split; assumption|]. split; [split; assumption|]. split.
      * intros len' Hl; inversion Hl; subst. split; assumption.
      * exists s6. split; [exact D|]. congruence.
  - destruct g as [first last length];
      cbn [first_byte_pos last_byte_pos instance_length].
    intros ([N1 Hfirst] & [N2 Hlast] & Hlength & tail & Htail & ->).
    rewrite (proj2 (strip_prefix_spec "bytes " _ _) eq_refl).
    rewrite (span_complete Text.is_digit first _ Hfirst) by reflexivity.
    rewrite (proj2 (is_empty_false first) N1).
    rewrite (proj2 (strip_prefix_spec "-" _ _) eq_refl).
    rewrite (span_complete Text.is_digit last _ Hlast) by reflexivity.
    rewrite (proj2 (is_empty_false last) N2).
    rewrite (proj2 (strip_prefix_spec "/" _ _) eq_refl).
    apply at_dollar_ends_text in Htail as Hdollar.
    destruct length as [len|].
    + destruct (Hlength len eq_refl) as [N3 Hlen].
      assert (Hstar : Text.strip_prefix "*" (len ++ tail) = None).
      { destruct len as [|d len]; [contradiction|].
        simpl in Hlen. apply andb_prop in Hlen as [Hd _].
        change (Text.strip_prefix "*" (String d len ++ tail))
          with (if Ascii.eqb "*" d then Some (len ++ tail) else None).
        destruct (Ascii.eqb_spec "*" d) as [<-|]; [discriminate Hd|].
        reflexivity. }
      rewrite Hstar.
      rewrite (span_complete Text.is_digit len tail Hlen).
      * rewrite (proj2 (is_empty_false len) N3), Hdollar. reflexivity.
      * destruct Htail as [-> | ->]; [exact I | reflexivity].
    + rewrite (proj2 (strip_prefix_spec "*" _ _) eq_refl), Hdollar.
      reflexivity.
Qed.

Example parse_content_range_full :
  parse_content_range "bytes 100-199/200" 100 = Ok 200.
Proof. reflexivity. Qed.

Example parse_content_range_star :
  parse_content_range "bytes 100-199/*" 100 = Ok 200.
Proof. reflexivity. Qed.

Example parse_content_range_other_first :
  parse_content_range "bytes 50-199/200" 100
  = Raise (ContentRangeError UnexpectedReturned).
Proof. reflexivity. Qed.

Example parse_content_range_reversed :
  parse_content_range "bytes 100-99/200" 100
  = Raise (ContentRangeError InvalidReturned).
Proof. reflexivity. Qed.

(** When the function returns: the header matches, the range starts at the
    offset asked for, its last position is strictly beyond its first, and
    the instance length, when given, is one more than the last position. *)
Lemma parse_content_range_ok (content_range : string) (resumed_from v : Z) :
  parse_content_range content_range resumed_from = Ok v <->
  exists g,
    match_content_range content_range = Some g /\
    Text.int_of_digits (first_byte_pos g) = resumed_from /\
    Text.int_of_digits (first_byte_pos g)
      < Text.int_of_digits (last_byte_pos g) /\
    (forall len, instance_length g = Some len ->
                 Text.int_of_digits len
                 = Text.int_of_digits (last_byte_pos g) + 1) /\
    v = Text.int_of_digits (last_byte_pos g) + 1.
Proof.
  unfold parse_content_range.
  destruct (match_content_range content_range) as [g|]; simpl.
  - destruct (instance_length g) as [len|] eqn:Hlen; simpl.
    + destruct (Z.geb_spec (Text.int_of_digits (first_byte_pos g))
                  (Text.int_of_digits (last_byte_pos g)));
      destruct (Z.leb_spec (Text.int_of_digits len)
                  (Text.int_of_digits (last_byte_pos g)));
      destruct (Z.eqb_spec (Text.int_of_digits (first_byte_pos g))
                  resumed_from);
      destruct (Z.eqb_spec (Text.int_of_digits (last_byte_pos g) + 1)
                  (Text.int_of_digits len));
      simpl; split;
      try (intros [g' (Hg & H1 & H2 & H3 & H4)]; inversion Hg; subst g';
           specialize (H3 len Hlen); first [lia | congruence]);
      try discriminate.
      * intros Hv; inversion Hv; subst; exists g.
        split; [reflexivity|]. split; [lia|]. split; [lia|]. split; [|lia].
        intros len' Hlen'; rewrite Hlen in Hlen'; inversion Hlen'; subst; lia.
    + destruct (Z.geb_spec (Text.int_of_digits (first_byte_pos g))
                  (Text.int_of_digits (last_byte_pos g)));
      destruct (Z.eqb_spec (Text.int_of_digits (first_byte_pos g))
                  resumed_from);
      simpl; split;
      try (intros [g' (Hg & H1 & H2 & H3 & H4)]; inversion Hg; subst g';
           first [lia | congruence]);
      try discriminate.
      * intros Hv; inversion Hv; subst; exists g.
        split; [reflexivity|]. split; [lia|]. split; [lia|]. split; [|lia].
        intros len' Hlen'; rewrite Hlen in Hlen'; discriminate.
  - split; [discriminate | intros [g (Hg & _)]; discriminate].
Qed.

(** In the terms of the grammar: [parse_content_range] returns [last + 1]
    exactly for the texts of the grammar whose first position is the offset
    asked for, whose last position is strictly greater, and whose instance
    length, if given, is [last + 1]. *)
Lemma parse_content_range_accepts (content_range : string)
    (resumed_from v : Z) :
  parse_content_range content_range resumed_from = Ok v <->
  exists g tail,
    ends_text tail /\ content_range = content_range_text g tail
    /\ is_number (first_byte_pos g) /\ is_number (last_byte_pos g)
    /\ (forall len, instance_length g = Some len ->
          is_number len
          /\ Text.int_of_digits len
             = Text.int_of_digits (last_byte_pos g) + 1)
    /\ Text.int_of_digits (first_byte_pos g) = resumed_from
    /\ Text.int_of_digits (first_byte_pos g)
       < Text.int_of_digits (last_byte_pos g)
    /\ v = Text.int_of_digits (last_byte_pos g) + 1.
Proof.
  rewrite parse_content_range_ok. split.
  - intros [g (Hg & Hfirst & Hlt & Hlen & Hv)].
    apply match_content_range_grammar in Hg
      as (N1 & N2 & N3 & tail & Htail & Htext).
    exists g, tail.
    split; [exact Htail|]. split; [exact Htext|]. split; [exact N1|].
    split; [exact N2|]. split.
    { intros len Hl. split; [exact (N3 len Hl) | exact (Hlen len Hl)]. }
    split; [exact Hfirst|]. split; [exact Hlt | exact Hv].
  - intros [g (tail & Htail & Htext & N1 & N2 & Hlen & Hfirst & Hlt & Hv)].
    exists g. split.
    { apply match_content_range_grammar.
      split; [exact N1|]. split; [exact N2|]. split.
      - intros len Hl. exact (proj1 (Hlen len Hl)).
      - exists tail. split; assumption. }
    split; [exact Hfirst|]. split; [exact Hlt|]. split; [|exact Hv].
    intros len Hl. exact (proj2 (Hlen len Hl)).
Qed.

(** Whatever the input, the only exception is [ContentRangeError]. *)
Lemma parse_content_range_raises_only (content_range : string)
    (resumed_from : Z) (e : exn) :
  parse_content_range content_range resumed_from = Raise e ->
  exists why, e = ContentRangeError why.
Proof.
  unfold parse_content_range.
  destruct (match_content_range content_range) as [g|].
  - simpl. destruct (_ || _); [intros H; inversion H; eauto|].
    destruct (_ || _); [intros H; inversion H; eauto | discriminate].
  - intros H; inversion H; eauto.
Qed.

(** A range whose first and last positions coincide is always refused,
    whatever offset was asked for. *)
Lemma parse_content_range_one_byte (content_range : string) (r : Z)
    (g : content_range_groups) :
  match_content_range content_range = Some g ->
  Text.int_of_digits (first_byte_pos g)
  = Text.int_of_digits (last_byte_pos g) ->
  parse_content_range content_range r
  = Raise (ContentRangeError InvalidReturned).
Proof.
  intros Hg Heq. unfold parse_content_range. rewrite Hg. simpl.
  rewrite Heq.
  destruct (Z.geb_spec (Text.int_of_digits (last_byte_pos g))
              (Text.int_of_digits (last_byte_pos g))); [reflexivity | lia].
Qed.

(** C1: the header [bytes 100-100/101] matches the grammar with first = 100
    = the offset asked for, last = 100 >= first and instance length =
    last + 1, and yet [parse_content_range] raises [ContentRangeError]
    instead of returning 101: the validity test is [first >= last]. *)
Theorem parse_content_range_single_byte_refused :
  match_content_range "bytes 100-100/101"
  = Some {| first_byte_pos := "100"; last_byte_pos := "100";
            instance_length := Some "101" |}
  /\ parse_content_range "bytes 100-100/101" 100
     = Raise (ContentRangeError InvalidReturned).
Proof. split; reflexivity. Qed.

(** ** [Download.interrupted] *)

(** With a known total size of zero the property yields the falsy [0],
    although the file is closed and 5 bytes differ from 0. *)
Lemma interrupted_zero_total_is_falsy :
  interrupted zero_length_download = Ok (PyInt 0)
  /\ ~ interrupted_when_closed_known_and_short zero_length_download.
Proof.
  split; [reflexivity|].
  intros [_ Hback].
  destruct Hback as [v [Hv Ht]].
  - exists {| name := "out"; closed := true; seekable := true |}, 0.
    repeat split; simpl; congruence.
  - inversion Hv; subst v. discriminate Ht.
Qed.

(** C2 (amended): [interrupted] is truthy exactly when the output file is
    closed, a total size is known and is not zero, and it differs from the
    number of bytes downloaded; it is falsy when the total size is unknown
    or zero. *)
Theorem interrupted_iff (d : Download) :
  (exists v, interrupted d = Ok v /\ truthy v = true) <->
  (exists f total,
      _output_file d = Some f /\ closed f = true /\
      total_size (_progress d) = Some total /\ total <> 0 /\
      downloaded (_progress d) <> total).
Proof.
  unfold interrupted.
  destruct (_output_file d) as [f|].
  - destruct (closed f) eqn:Hclosed;
      destruct (total_size (_progress d)) as [total|] eqn:Htotal;
      unfold py_and; simpl.
    + destruct (Z.eqb_spec total 0) as [Hz|Hz]; simpl.
      * split.
        -- intros [v [Hv Ht]]. inversion Hv; subst v. simpl in Ht.
           rewrite Hz in Ht. discriminate Ht.
        -- intros [f' [t' (Hf & _ & Ht' & Hnz & _)]].
           inversion Ht'; subst t'. contradiction.
      * split.
        -- intros [v [Hv Ht]]. inversion Hv; subst v. simpl in Ht.
           exists f, total. repeat split; try assumption.
           intros Heq. rewrite Heq, Z.eqb_refl in Ht. discriminate Ht.
        -- intros [f' [t' (Hf & _ & Ht' & _ & Hne)]].
           inversion Ht'; subst t'.
           exists (PyBool (negb (total =? downloaded (_progress d)))).
           split; [reflexivity|]. simpl.
           destruct (Z.eqb_spec total (downloaded (_progress d)));
             [congruence | reflexivity].
    + split.
      * intros [v [Hv Ht]]. inversion Hv; subst v. discriminate Ht.
      * intros [f' [t' (_ & _ & Ht' & _)]]. discriminate Ht'.
    + split.
      * intros [v [Hv Ht]]. inversion Hv; subst v. discriminate Ht.
      * intros [f' [t' (Hf & Hc & _)]]. inversion Hf; subst f'. congruence.
    + split.
      * intros [v [Hv Ht]]. inversion Hv; subst v. discriminate Ht.
      * intros [f' [t' (_ & _ & Ht' & _)]]. discriminate Ht'.
  - split.
    + intros [v [Hv _]]. discriminate Hv.
    + intros [f [t (Hf & _)]]. discriminate Hf.
Qed.

(** With no output file at all the property raises: [None] has no
    [closed] attribute. *)
Lemma interrupted_without_file (d : Download) :
  _output_file d = None -> interrupted d = Raise AttributeError.
Proof. unfold interrupted. intros ->. reflexivity. Qed.

(** Whenever the total size is unknown the property is falsy. *)
Lemma interrupted_unknown_total (d : Download) (v : pyval) :
  total_size (_progress d) = None ->
  interrupted d = Ok v -> truthy v = false.
Proof.
  unfold interrupted. intros Ht.
  destruct (_output_file d) as [f|]; [|discriminate].
  rewrite Ht. intros Hv. inversion Hv. unfold py_and.
  destruct (closed f); reflexivity.
Qed.

(** ** [Progress] *)

Lemma chunk_downloaded_ok (size : Z) (self : Progress) :
  time_finished self = None ->
  exists self',
    chunk_downloaded size self = Ok self'
    /\ downloaded self' = downloaded self + size
    /\ time_finished self' = None.
Proof.
  intros Hf. unfold chunk_downloaded. rewrite Hf.
  eexists. split; [reflexivity|]. simpl. auto.
Qed.

Lemma chunks_downloaded_ok (sizes : list Z) :
  forall self,
    time_finished self = None ->
    exists self',
      chunks_downloaded sizes self = Ok self'
      /\ downloaded self' = downloaded self + sum_sizes sizes
      /\ time_finished self' = None.
Proof.
  induction sizes as [|size sizes IH]; intros self Hf; simpl.
  - exists self. repeat split; [lia | assumption].
  - destruct (chunk_downloaded_ok size self Hf) as [p (Hp & Hd & Hf')].
    rewrite Hp. simpl.
    destruct (IH p Hf') as [p' (Hp' & Hd' & Hf'')].
    exists p'. repeat split; [assumption | lia | assumption].
Qed.

Lemma sum_sizes_nonneg (sizes : list Z) :
  Forall (fun size => 0 <= size) sizes -> 0 <= sum_sizes sizes.
Proof.
  induction 1; simpl; lia.
Qed.

(** C3: on a [Progress] not yet started, [started(resumed_from=r,
    total_size=t)] followed by [chunk_downloaded(s_1)] ...
    [chunk_downloaded(s_n)] with sizes that are not negative all succeed,
    whatever the clock reads; afterwards [downloaded] is [r + sum(s_i)],
    and no single call lowers the counter. *)
Theorem downloaded_is_offset_plus_sizes
    (now : Q) (r : Z) (t : option Z) (sizes : list Z) (self : Progress) :
  time_started self = None ->
  time_finished self = None ->
  0 <= r ->
  Forall (fun size => 0 <= size) sizes ->
  exists p0 p,
    started now r t self = Ok p0
    /\ downloaded p0 = r
    /\ chunks_downloaded sizes p0 = Ok p
    /\ downloaded p = r + sum_sizes sizes
    /\ forall done size rest,
         sizes = (done ++ size :: rest)%list ->
         exists p1 p2,
           chunks_downloaded done p0 = Ok p1
           /\ chunk_downloaded size p1 = Ok p2
           /\ r <= downloaded p1 <= downloaded p2.
Proof.
  intros Hs Hf Hr Hsizes.
  unfold started. rewrite Hs.
  eexists. 
  match goal with |- exists p, Ok ?q = Ok _ /\ _ => set (p0 := q) end.
  assert (Hf0 : time_finished p0 = None) by exact Hf.
  destruct (chunks_downloaded_ok sizes p0 Hf0) as [p (Hp & Hd & _)].
  exists p. split; [reflexivity|]. split; [reflexivity|].
  split; [exact Hp|]. split; [exact Hd|].
  intros done size rest Hsplit.
  destruct (chunks_downloaded_ok done p0 Hf0) as [p1 (Hp1 & Hd1 & Hf1)].
  destruct (chunk_downloaded_ok size p1 Hf1) as [p2 (Hp2 & Hd2 & _)].
  exists p1, p2. split; [exact Hp1|]. split; [exact Hp2|].
  subst sizes.
  apply Forall_app in Hsizes as [Hdone Hrest].
  apply Forall_cons_iff in Hrest as [Hsize _].
  pose proof (sum_sizes_nonneg done Hdone).
  change (downloaded p0) with r in Hd1. lia.
Qed.

(** After [started] the start time is set, and nothing is finished that
    was not before. *)
Lemma started_sets_time (now : Q) (r : Z) (t : option Z)
    (self p : Progress) :
  started now r t self = Ok p ->
  time_started p = Some now /\ time_finished p = time_finished self.
Proof.
  unfold started. destruct (time_started self); [discriminate|].
  intros H; inversion H; subst p. split; reflexivity.
Qed.

Lemma finished_sets_time (now : Q) (self p : Progress) :
  finished now self = Ok p ->
  time_finished p = Some now /\ time_started p = time_started self.
Proof.
  unfold finished. destruct (time_started self); [|discriminate].
  destruct (time_finished self); [discriminate|].
  intros H; inversion H; subst p. split; reflexivity.
Qed.

(** C4: each misuse ends in [AssertionError], the objects left as they
    were: [started] on a [Progress] already started; [finished] on one not
    started; [finished] on one already finished; [chunk_downloaded] once
    [time_finished] is set; and [Download.start] when the progress already
    has a start time. The guard of [start] tests the truth value of
    [time_started], so the reading stored there is taken not to be the
    zero of the clock. *)
Theorem contract_violations_assert :
  (forall now now' r r' t t' self p,
      started now r t self = Ok p ->
      started now' r' t' p = Raise AssertionError)
  /\ (forall now self,
         time_started self = None ->
         finished now self = Raise AssertionError)
  /\ (forall now now' self p,
         finished now self = Ok p ->
         finished now' p = Raise AssertionError)
  /\ (forall size self at_time,
         time_finished self = Some at_time ->
         chunk_downloaded size self = Raise AssertionError)
  /\ (forall fuel t_started t_report response disk self at_time,
         time_started (_progress self) = Some at_time ->
         ~ (at_time == 0)%Q ->
         start fuel t_started t_report response disk self
         = Some (Raise AssertionError, self, disk)).
Proof.
  repeat split.
  - intros now now' r r' t t' self p H.
    apply started_sets_time in H as [H _].
    unfold started. rewrite H. reflexivity.
  - intros now self H. unfold finished. rewrite H. reflexivity.
  - intros now now' self p H.
    destruct (finished_sets_time _ _ _ H) as [Hf Hs].
    unfold finished in *. rewrite Hf.
    destruct (time_started p); reflexivity.
  - intros size self at_time H. unfold chunk_downloaded. rewrite H.
    reflexivity.
  - intros fuel t1 t2 response disk self at_time H Hnz.
    unfold start. rewrite H. simpl.
    destruct (Qeq_bool at_time 0) eqn:E; [|reflexivity].
    apply Qeq_bool_eq in E. contradiction.
Qed.

(** The guard of [start] is the truth value of the start time: a start
    time of exactly zero passes it like no start time at all. *)
Lemma start_guard_is_truth_value (self : Download) :
  time_started (_progress self) = Some 0%Q ->
  truthy_time (time_started (_progress self)) = false.
Proof. intros ->. reflexivity. Qed.

(** ** [ProgressReporter.sum_up] *)

(** With a known total size and a clock that moved, the summary is written
    after the clear-line sequence: bytes of this session, the elapsed
    time, and their quotient. *)
Lemma sum_up_known_total (progress : Progress) (self : ProgressReporter)
    (total : Z) (t0 t1 : Q) :
  total_size progress = Some total ->
  time_started progress = Some t0 ->
  time_finished progress = Some t1 ->
  ~ (t1 - t0 == 0)%Q ->
  sum_up progress self
  = (Ok tt,
     write (SUMMARY
              (humanize_bytes
                 (inject_Z (downloaded progress - resumed_from progress)))
              (humanize_bytes (inject_Z total))
              (t1 - t0)%Q
              (humanize_bytes
                 (inject_Z (downloaded progress - resumed_from progress)
                  / (t1 - t0))%Q))
       (write CLEAR_LINE self)).
Proof.
  intros Ht H0 H1 Hne. unfold sum_up. rewrite Ht, H0, H1. simpl.
  unfold py_div.
  destruct (Qeq_bool (t1 - t0) 0) eqn:E.
  - apply Qeq_bool_eq in E. contradiction.
  - reflexivity.
Qed.

(** When both clock readings coincide, the division raises after the
    clear-line sequence went out. *)
Lemma sum_up_no_time_elapsed (progress : Progress) (self : ProgressReporter)
    (total : Z) (t0 t1 : Q) :
  total_size progress = Some total ->
  time_started progress = Some t0 ->
  time_finished progress = Some t1 ->
  (t1 - t0 == 0)%Q ->
  sum_up progress self = (Raise ZeroDivisionError, write CLEAR_LINE self).
Proof.
  intros Ht H0 H1 Heq. unfold sum_up. rewrite Ht, H0, H1. simpl.
  unfold py_div. rewrite (Qeq_eq_bool _ _ Heq). reflexivity.
Qed.

(** Whenever the total size is unknown, [sum_up] hands [None] to
    [humanize_bytes] and raises, the summary line unwritten. *)
Lemma sum_up_unknown_total (progress : Progress) (self : ProgressReporter)
    (t0 t1 : Q) :
  total_size progress = None ->
  time_started progress = Some t0 ->
  time_finished progress = Some t1 ->
  sum_up progress self = (Raise TypeError, write CLEAR_LINE self).
Proof.
  intros Ht H0 H1. unfold sum_up. rewrite Ht, H0, H1. reflexivity.
Qed.

(** C5: for the finished state with [resumed_from = 100],
    [downloaded = 1100] and ten seconds between start and finish, the
    summary is reported when the total size is known (1000 bytes, 10 s,
    100 bytes a second), and with the total size unknown [sum_up] raises
    [TypeError] once the clear-line sequence is written: no summary. Nor
    is there one when start and finish read the same time: the division
    raises. In both failing cases the clear-line sequence is all that the
    progress file receives. *)
Theorem sum_up_needs_known_total (T : Q) (self : ProgressReporter) :
  sum_up (resumed_progress (Some 1100) T) self
  = (Ok tt,
     write (SUMMARY (humanize_bytes (inject_Z 1000))
              (humanize_bytes (inject_Z 1100))
              (T + 10 - T)%Q
              (humanize_bytes (inject_Z 1000 / (T + 10 - T))%Q))
       (write CLEAR_LINE self))
  /\ (T + 10 - T == 10)%Q
  /\ (inject_Z 1000 / (T + 10 - T) == 100)%Q
  /\ sum_up (resumed_progress None T) self
     = (Raise TypeError, write CLEAR_LINE self)
  /\ sum_up (instant_progress T) self
     = (Raise ZeroDivisionError, write CLEAR_LINE self)
  /\ output (snd (sum_up (resumed_progress (Some 1100) T) self))
     = (output self
        ++ CLEAR_LINE
        :: SUMMARY (humanize_bytes (inject_Z 1000))
             (humanize_bytes (inject_Z 1100))
             (T + 10 - T)%Q
             (humanize_bytes (inject_Z 1000 / (T + 10 - T))%Q)
        :: nil)%list
  /\ output (snd (sum_up (resumed_progress None T) self))
     = (output self ++ CLEAR_LINE :: nil)%list
  /\ output (snd (sum_up (instant_progress T) self))
     = (output self ++ CLEAR_LINE :: nil)%list.
Proof.
  assert (Hten : (T + 10 - T == 10)%Q) by ring.
  assert (Hknown : sum_up (resumed_progress (Some 1100) T) self
                   = (Ok tt,
                      write (SUMMARY (humanize_bytes (inject_Z 1000))
                               (humanize_bytes (inject_Z 1100))
                               (T + 10 - T)%Q
                               (humanize_bytes
                                  (inject_Z 1000 / (T + 10 - T))%Q))
                        (write CLEAR_LINE self))).
  { apply sum_up_known_total; try reflexivity.
    rewrite Hten. discriminate. }
  assert (Hinstant : sum_up (instant_progress T) self
                     = (Raise ZeroDivisionError, write CLEAR_LINE self)).
  { apply (sum_up_no_time_elapsed _ _ 1100 T T); try reflexivity. ring. }
  split; [exact Hknown|]. split; [exact Hten|].
  split; [rewrite Hten; reflexivity|].
  split; [reflexivity|]. split; [exact Hinstant|].
  split; [|split].
  - rewrite Hknown. cbn [snd output write]. rewrite <- app_assoc.
    reflexivity.
  - reflexivity.
  - rewrite Hinstant. reflexivity.
Qed.

(** A wake after the download finished sums up and schedules no other
    wake; a wake before that reports the speed and schedules the next. *)
Lemma report_finished (now : Q) (progress : Progress)
    (self : ProgressReporter) :
  has_finished progress = true ->
  report now progress self
  = (_ <- fst (sum_up progress self) ;; Ok false,
     snd (sum_up progress self)).
Proof.
  intros H. unfold report. rewrite H.
  destruct (sum_up progress self). reflexivity.
Qed.

Lemma report_running (now : Q) (progress : Progress)
    (self : ProgressReporter) :
  has_finished progress = false ->
  report now progress self
  = (_ <- fst (report_speed now progress self) ;; Ok true,
     snd (report_speed now progress self)).
Proof.
  intros H. unfold report. rewrite H.
  destruct (report_speed now progress self). reflexivity.
Qed.

(** ** [ProgressReporter.report_speed] *)

Lemma spinner_glyph_in_range (pos : nat) :
  (pos < String.length SPINNER)%nat ->
  exists glyph, spinner_glyph pos = Ok glyph.
Proof.
  intros H. unfold spinner_glyph.
  do 4 (destruct pos as [|pos]; [eexists; reflexivity|]).
  simpl in H. lia.
Qed.

(** The spinner position stays inside [SPINNER]. *)
Lemma next_spinner_pos_in_range (pos : nat) :
  (pos < String.length SPINNER)%nat ->
  (next_spinner_pos pos < String.length SPINNER)%nat.
Proof.
  intros H. unfold next_spinner_pos.
  destruct (Nat.eqb_spec (pos + 1) (String.length SPINNER)); simpl in *; lia.
Qed.

(** A wake inside the update interval divides nothing: it redraws the
    line it has with the next glyph. *)
Lemma report_speed_inside_interval (now : Q) (progress : Progress)
    (self : ProgressReporter) (glyph : string) :
  Qle_bool (_update_interval self) (now - _prev_time self) = false ->
  spinner_glyph (_spinner_pos self) = Ok glyph ->
  report_speed now progress self
  = (Ok tt,
     advance_spinner
       (write (CLEAR_LINE ++ glyph ++ " " ++ _status_line self) self)).
Proof.
  intros Hin Hg. unfold report_speed. rewrite Hin, Hg. reflexivity.
Qed.

(** With the total size unknown, a refresh over a span of time that is
    not zero raises [TypeError], whatever the speed: [None - downloaded]
    is evaluated before the division, and the [except] clause catches
    [ZeroDivisionError] only. Nothing is written. *)
Lemma report_speed_unknown_total (now : Q) (progress : Progress)
    (self : ProgressReporter) :
  total_size progress = None ->
  Qle_bool (_update_interval self) (now - _prev_time self) = true ->
  ~ (now - _prev_time self == 0)%Q ->
  report_speed now progress self = (Raise TypeError, self).
Proof.
  intros Ht Hout Hne.
  unfold report_speed, status_line, speed_and_eta_or_unknown, speed_and_eta,
    py_div.
  rewrite Hout, Ht.
  destruct (Qeq_bool (now - _prev_time self) 0) eqn:E.
  - apply Qeq_bool_eq in E. contradiction.
  - reflexivity.
Qed.

(** C6: one second after the reporter was set up, with 8192 bytes in and
    the total size unknown, [report_speed] does not render the line
    without percentage and total: it raises [TypeError] and leaves the
    progress file untouched. *)
Theorem report_speed_unknown_total_raises :
  report_speed 101 unknown_length_progress (ProgressReporter_init nil 100)
  = (Raise TypeError, ProgressReporter_init nil 100).
Proof. reflexivity. Qed.

(** [divides_by_zero] is when the [try] raises [ZeroDivisionError],
    provided the rendering of the time left does not raise it itself. *)
Lemma speed_and_eta_zero_division (now : Q) (progress : Progress)
    (self : ProgressReporter) :
  (forall n, str_timedelta n <> Raise ZeroDivisionError) ->
  speed_and_eta now progress self = Raise ZeroDivisionError
  <-> divides_by_zero now progress self.
Proof.
  intros Hdelta. unfold speed_and_eta, divides_by_zero, py_div.
  destruct (Qeq_bool (now - _prev_time self) 0) eqn:E.
  - apply Qeq_bool_eq in E. split; [left; exact E | reflexivity].
  - assert (Hne : ~ (now - _prev_time self == 0)%Q).
    { intros H. rewrite (Qeq_eq_bool _ _ H) in E. discriminate E. }
    simpl.
    destruct (total_size progress) as [total|]; simpl.
    + destruct (Qeq_bool (inject_Z (downloaded progress - _prev_bytes self)
                          / (now - _prev_time self)) 0) eqn:S.
      * apply Qeq_bool_eq in S.
        split; [right; exists total; split; [reflexivity | exact S]
               | reflexivity].
      * simpl. split.
        -- destruct (str_timedelta _) as [eta|e] eqn:D; simpl;
             [discriminate|].
           intros H; inversion H; subst e. destruct (Hdelta _ D).
        -- intros [H | [total' [_ H]]]; [contradiction|].
           rewrite (Qeq_eq_bool _ _ H) in S. discriminate S.
    + split; [discriminate|].
      intros [H | [total [H _]]]; [contradiction | discriminate H].
Qed.

(** C7: on a wake that refreshes the status line, in the two cases the
    specification names. When no time has passed since the previous
    sample (which takes an update interval that is not positive), or when
    the speed computed is zero and the total size is a number, the
    division by zero is caught: the line is rendered with speed 0 and [?]
    for the time left, and written after the clear-line sequence and the
    spinner glyph. When the speed computed is zero and the total size is
    unknown, [None - downloaded] raises [TypeError] before anything is
    divided: [report_speed] raises, and writes and records nothing. *)
Theorem report_speed_division_by_zero (now : Q) (progress : Progress)
    (self : ProgressReporter) :
  Qle_bool (_update_interval self) (now - _prev_time self) = true ->
  (_spinner_pos self < String.length SPINNER)%nat ->
  no_time_elapsed now self \/ speed_is_zero now progress self ->
  (no_time_elapsed now self -> (_update_interval self <= 0)%Q)
  /\ (no_time_elapsed now self \/ total_size progress <> None ->
      exists glyph self',
        spinner_glyph (_spinner_pos self) = Ok glyph
        /\ report_speed now progress self = (Ok tt, self')
        /\ _status_line self' = status_line_unknown_speed progress
        /\ (exists shown,
               _status_line self'
               = shown ++ " (" ++ humanize_bytes 0 ++ "/s) ETA ?")
        /\ output self'
           = (output self
              ++ (CLEAR_LINE ++ glyph ++ " "
                  ++ _status_line self')%string :: nil)%list
        /\ _prev_bytes self' = downloaded progress
        /\ _prev_time self' = now
        /\ _spinner_pos self' = next_spinner_pos (_spinner_pos self))
  /\ (speed_is_zero now progress self ->
      total_size progress = None ->
      report_speed now progress self = (Raise TypeError, self)).
Proof.
  intros Hout Hpos Hcase.
  destruct (spinner_glyph_in_range _ Hpos) as [glyph Hg].
  split; [|split].
  - unfold no_time_elapsed. intros Hz.
    apply Qle_bool_iff in Hout. rewrite Hz in Hout. exact Hout.
  - intros Hknown.
    assert (Hraise : speed_and_eta now progress self
                     = Raise ZeroDivisionError).
    { unfold speed_and_eta, py_div.
      destruct (Qeq_bool (now - _prev_time self) 0) eqn:E; [reflexivity|].
      assert (Hne : ~ (now - _prev_time self == 0)%Q).
      { intros H. rewrite (Qeq_eq_bool _ _ H) in E. discriminate E. }
      destruct Hknown as [H | Hknown]; [contradiction|].
      destruct Hcase as [H | [_ Hz]]; [contradiction|].
      destruct (total_size progress) as [total|]; [|contradiction].
      simpl. rewrite (Qeq_eq_bool _ _ Hz). reflexivity. }
    exists glyph.
    unfold report_speed, status_line, speed_and_eta_or_unknown.
    rewrite Hout, Hraise. simpl bind. cbv beta iota.
    change (_spinner_pos (with_status ?l ?b ?n self)) with (_spinner_pos self).
    rewrite Hg. eexists. split; [reflexivity|]. split; [reflexivity|].
    cbn [_status_line output _prev_bytes _prev_time _spinner_pos
         advance_spinner write with_status].
    split; [|split; [|repeat split; reflexivity]].
    + unfold status_line_unknown_speed.
      destruct (total_size progress) as [total|];
        [destruct (negb (total =? 0))|]; reflexivity.
    + unfold PROGRESS, PROGRESS_NO_CONTENT_LENGTH.
      destruct (total_size progress) as [total|];
        [destruct (negb (total =? 0))|].
      * exists (format_percentage
                  (inject_Z (downloaded progress) / inject_Z total * 100)%Q
                ++ "% (" ++ humanize_bytes (inject_Z (downloaded progress))
                ++ ") of " ++ total_size_humanized progress).
        rewrite !append_assoc. reflexivity.
      * exists (humanize_bytes (inject_Z (downloaded progress))).
        reflexivity.
      * exists (humanize_bytes (inject_Z (downloaded progress))).
        reflexivity.
  - intros [Hne _] Hnone.
    apply report_speed_unknown_total; assumption.
Qed.

(** ** [filename_from_content_disposition] *)

(** The pattern of plain names accepts a text of name characters, with
    at most a final line feed after them. *)
Lemma match_plain_name_inv (fn : string) :
  match_plain_name fn = true ->
  exists body rest,
    fn = body ++ rest /\ body <> EmptyString
    /\ Text.all_chars Text.is_name_char body = true
    /\ (rest = EmptyString \/ rest = String Text.newline EmptyString).
Proof.
  unfold match_plain_name.
  destruct (Text.span Text.is_name_char fn) as [body rest] eqn:E.
  destruct (span_spec _ _ _ _ E) as (Hfn & Hall & _).
  intros H. apply andb_prop in H as [Hne Hend].
  exists body, rest. repeat split; try assumption.
  - intros ->. discriminate Hne.
  - destruct rest as [|c [|c' rest]]; simpl in Hend; try discriminate.
    + left; reflexivity.
    + right. apply Ascii.eqb_eq in Hend. rewrite Hend. reflexivity.
Qed.

Lemma match_plain_name_no_space (fn : string) :
  Text.all_chars not_space fn = true ->
  match_plain_name fn = true ->
  fn <> EmptyString /\ Text.all_chars Text.is_name_char fn = true.
Proof.
  intros Hns H.
  destruct (match_plain_name_inv fn H) as (body & rest & Hfn & Hne & Hall & Hrest).
  destruct Hrest as [-> | ->].
  - assert (fn = body) as ->.
    { rewrite Hfn. apply append_empty. }
    split; assumption.
  - exfalso.
    assert (Hin : has_char Text.newline fn = true).
    { rewrite Hfn, has_char_app. simpl. apply orb_true_r. }
    rewrite (all_chars_has_char not_space Text.newline fn Hns eq_refl) in Hin.
    discriminate Hin.
Qed.

Lemma match_plain_name_of_name_chars (fn : string) :
  fn <> EmptyString ->
  Text.all_chars Text.is_name_char fn = true ->
  match_plain_name fn = true.
Proof.
  intros Hne Hall. unfold match_plain_name.
  rewrite (all_chars_span _ _ Hall).
  destruct fn; [contradiction | reflexivity].
Qed.

Lemma lstrip_dots_all_chars (p : ascii -> bool) (s : string) :
  Text.all_chars p s = true -> Text.all_chars p (Text.lstrip_dots s) = true.
Proof.
  induction s as [|c s IH]; simpl; [reflexivity|].
  intros H. destruct (Ascii.eqb c "."); [|exact H].
  apply andb_prop in H as [_ Hs]. exact (IH Hs).
Qed.

Lemma lstrip_dots_has_slash (s : string) :
  has_char "/" (Text.lstrip_dots s) = has_char "/" s.
Proof.
  induction s as [|c s IH]; simpl; [reflexivity|].
  destruct (Ascii.eqb_spec c "."); [|reflexivity].
  subst c. rewrite IH. reflexivity.
Qed.

(** The token found is not empty and holds no white space. *)
Lemma filename_token_here_no_space (s token : string) :
  filename_token_here s = Some token ->
  token <> EmptyString /\ Text.all_chars not_space token = true.
Proof.
  unfold filename_token_here.
  destruct (Text.strip_prefix "filename=" s) as [r|]; [|discriminate].
  destruct (Text.span not_space r) as [taken rest] eqn:E.
  destruct (span_spec _ _ _ _ E) as (_ & Hall & _).
  destruct taken; simpl; [discriminate|].
  intros H; inversion H; subst. split; [discriminate | exact Hall].
Qed.

Lemma search_filename_no_space (s token : string) :
  search_filename s = Some token ->
  token <> EmptyString /\ Text.all_chars not_space token = true.
Proof.
  induction s as [|c s IH]; simpl.
  - discriminate.
  - destruct (filename_token_here (String c s)) eqn:E.
    + intros H; inversion H; subst. exact (filename_token_here_no_space _ _ E).
    + exact IH.
Qed.

Lemma filename_token_here_spec (s token : string) :
  filename_token_here s = Some token <->
  exists rest,
    s = "filename=" ++ token ++ rest
    /\ token <> EmptyString
    /\ Text.all_chars not_space token = true
    /\ token_ends rest.
Proof.
  unfold filename_token_here. split.
  - destruct (Text.strip_prefix "filename=" s) as [r|] eqn:E; [|discriminate].
    apply strip_prefix_spec in E.
    destruct (Text.span not_space r) as [taken rest] eqn:Hspan.
    destruct (span_spec _ _ _ _ Hspan) as (Hr & Hall & Hrest).
    destruct (Text.is_empty taken) eqn:N; [discriminate|].
    apply is_empty_false in N.
    intros H; inversion H; subst taken.
    exists rest. split; [congruence|]. split; [exact N|]. split; [exact Hall|].
    destruct rest as [|c rest]; [exact I|].
    unfold not_space in Hrest. simpl.
    destruct (Text.is_space c); [reflexivity | discriminate Hrest].
  - intros [rest (-> & N & Hall & Hrest)].
    rewrite (proj2 (strip_prefix_spec "filename=" _ _) eq_refl).
    rewrite (span_complete not_space token rest Hall).
    + rewrite (proj2 (is_empty_false token) N). reflexivity.
    + destruct rest as [|c rest]; [exact I|].
      simpl in Hrest. unfold not_space. rewrite Hrest. reflexivity.
Qed.

Lemma filename_token_here_none (s : string) :
  filename_token_here s = None <->
  forall c r, s = "filename=" ++ String c r -> Text.is_space c = true.
Proof.
  split.
  - intros Hnone c r ->.
    unfold filename_token_here in Hnone.
    rewrite (proj2 (strip_prefix_spec "filename=" _ _) eq_refl) in Hnone.
    simpl in Hnone. unfold not_space in Hnone at 1.
    destruct (Text.is_space c); [reflexivity|]. simpl in Hnone.
    destruct (Text.span not_space r). discriminate Hnone.
  - intros Hspace.
    destruct (filename_token_here s) as [token|] eqn:E; [|reflexivity].
    apply filename_token_here_spec in E as [rest (Hs & N & Hall & _)].
    destruct token as [|c token]; [contradiction|].
    simpl in Hall. apply andb_prop in Hall as [Hc _]. unfold not_space in Hc.
    rewrite (Hspace c (token ++ rest)) in Hc by exact Hs.
    discriminate Hc.
Qed.

(** [search_filename] finds the token of the leftmost match. *)
Lemma search_filename_spec (header token : string) :
  search_filename header = Some token <-> is_filename_token header token.
Proof.
  unfold is_filename_token.
  induction header as [|x header IH].
  - split; [discriminate|].
    intros [before [rest (H & _)]].
    destruct before; discriminate H.
  - simpl search_filename.
    destruct (filename_token_here (String x header)) as [found|] eqn:E.
    + split.
      * intros H; inversion H; subst found.
        apply filename_token_here_spec in E as [rest (Hs & N & Hall & Hrest)].
        exists EmptyString, rest. repeat split; try assumption.
        intros before' c rest' _ Hlt. simpl in Hlt. lia.
      * intros [before [rest (Hs & N & Hall & Hrest & Hleft)]].
        destruct before as [|y before].
        -- assert (Hhere : filename_token_here (String x header) = Some token).
           { apply filename_token_here_spec. exists rest. auto. }
           congruence.
        -- exfalso.
           apply filename_token_here_spec in E
             as [rest' (Hs' & N' & Hall' & _)].
           destruct found as [|c found]; [contradiction|].
           simpl in Hall'. apply andb_prop in Hall' as [Hc _].
           unfold not_space in Hc.
           rewrite (Hleft EmptyString c (found ++ rest')) in Hc.
           ++ discriminate Hc.
           ++ exact Hs'.
           ++ simpl. lia.
    + rewrite IH. split.
      * intros [before [rest (Hs & N & Hall & Hrest & Hleft)]].
        exists (String x before), rest.
        split; [rewrite Hs; reflexivity|].
        split; [exact N|]. split; [exact Hall|]. split; [exact Hrest|].
        intros before' c rest' Hs' Hlt.
        destruct before' as [|y before'].
        -- apply (proj1 (filename_token_here_none _) E c rest'). exact Hs'.
        -- apply (Hleft before' c rest').
           ++ inversion Hs'. reflexivity.
           ++ simpl in Hlt. lia.
      * intros [before [rest (Hs & N & Hall & Hrest & Hleft)]].
        destruct before as [|y before].
        -- exfalso.
           assert (Hhere : filename_token_here (String x header) = Some token).
           { apply filename_token_here_spec. exists rest. auto. }
           congruence.
        -- exists before, rest.
           split; [inversion Hs; reflexivity|].
           split; [exact N|]. split; [exact Hall|]. split; [exact Hrest|].
           intros before' c rest' Hs' Hlt.
           apply (Hleft (String x before') c rest').
           ++ rewrite Hs'. reflexivity.
           ++ simpl. lia.
Qed.

Lemma filename_from_content_disposition_iff (header fn : string) :
  filename_from_content_disposition header = Some fn <->
  exists token,
    search_filename header = Some token
    /\ fn = Text.lstrip_dots token
    /\ fn <> EmptyString
    /\ Text.all_chars Text.is_name_char fn = true.
Proof.
  unfold filename_from_content_disposition.
  destruct (search_filename header) as [token|] eqn:E.
  - destruct (search_filename_no_space _ _ E) as [_ Hns].
    pose proof (lstrip_dots_all_chars _ _ Hns) as Hns'.
    destruct (match_plain_name (Text.lstrip_dots token)) eqn:M.
    + destruct (match_plain_name_no_space _ Hns' M) as [Hne Hall].
      split.
      * intros H; inversion H; subst fn. exists token. auto.
      * intros [token' (Ht & Hfn & _)]. inversion Ht; subst. reflexivity.
    + split; [discriminate|].
      intros [token' (Ht & Hfn & Hne & Hall)]. inversion Ht; subst.
      rewrite (match_plain_name_of_name_chars _ Hne Hall) in M.
      discriminate M.
  - split; [discriminate|]. intros [token (Ht & _)]. discriminate Ht.
Qed.

(** A token with a slash in it is refused. *)
Lemma filename_with_slash_refused (header token : string) :
  search_filename header = Some token ->
  has_char "/" token = true ->
  filename_from_content_disposition header = None.
Proof.
  intros Ht Hslash.
  destruct (filename_from_content_disposition header) as [fn|] eqn:E;
    [|reflexivity].
  apply filename_from_content_disposition_iff in E
    as [token' (Ht' & Hfn & _ & Hall)].
  rewrite Ht in Ht'. inversion Ht'; subst token'.
  rewrite <- (lstrip_dots_has_slash token), <- Hfn in Hslash.
  rewrite (all_chars_has_char Text.is_name_char "/" fn Hall eq_refl) in Hslash.
  discriminate Hslash.
Qed.

(** The quoted name keeps its quotes in the token, which the pattern of
    plain names then refuses; and a space ends the token, so that a name
    with a space in it yields what stands before the space. *)
Lemma quoted_or_spaced_filename :
  filename_from_content_disposition quoted_secret_header <> Some "secret"
  /\ filename_from_content_disposition quoted_secret_header = None
  /\ filename_from_content_disposition "attachment; filename=my file.txt"
     = Some "my".
Proof. split; [discriminate | split; reflexivity]. Qed.

(** C8 (amended): [filename_from_content_disposition] takes the run of
    characters other than white space that follows the leftmost
    [filename=] followed by such a character, strips its leading dots, and
    returns the rest exactly when it is not empty and made of
    [A-Za-z0-9._-] only. It returns [report.tar.gz] for
    [attachment; filename=report.tar.gz] and [secret] for
    [attachment; filename=.secret]; nothing for the quoted [.secret],
    whose quotes stay in the token, and nothing for a token with a slash
    in it; a space ends the token, so [filename=my file.txt] yields
    [my]. *)
Theorem filename_from_content_disposition_tokens :
  (forall header fn,
      filename_from_content_disposition header = Some fn <->
      exists token,
        is_filename_token header token
        /\ fn = Text.lstrip_dots token
        /\ fn <> EmptyString
        /\ Text.all_chars Text.is_name_char fn = true)
  /\ filename_from_content_disposition "attachment; filename=report.tar.gz"
     = Some "report.tar.gz"
  /\ filename_from_content_disposition "attachment; filename=.secret"
     = Some "secret"
  /\ filename_from_content_disposition quoted_secret_header = None
  /\ (forall header token,
         is_filename_token header token ->
         has_char "/" token = true ->
         filename_from_content_disposition header = None)
  /\ filename_from_content_disposition "attachment; filename=my file.txt"
     = Some "my".
Proof.
  split.
  { intros header fn. rewrite filename_from_content_disposition_iff.
    split; intros [token (Ht & H)]; exists token;
      (split; [apply search_filename_spec; exact Ht | exact H]). }
  split; [reflexivity|]. split; [reflexivity|]. split; [reflexivity|].
  split; [|reflexivity].
  intros header token Ht. apply filename_with_slash_refused.
  apply search_filename_spec. exact Ht.
Qed.

(** ** [get_unique_filename] *)

Lemma probe_name_0 (fn : string) : probe_name fn 0 = fn.
Proof. unfold probe_name. simpl. apply append_empty. Qed.

Lemma probe_name_pos (fn : string) (k : Z) :
  0 < k -> probe_name fn k = fn ++ "-" ++ Text.str_of_Z k.
Proof.
  intros H. unfold probe_name.
  destruct (Z.ltb_spec 0 k); [reflexivity | lia].
Qed.

(** The loop started at [attempt] returns the first free name at or
    after it, given fuel for the passes it takes. *)
Lemma get_unique_filename_loop_first_free (fn : string)
    (exists_ : string -> bool) (n : nat) :
  forall (attempt : Z) (fuel : nat),
    (forall k, (k < n)%nat ->
               exists_ (probe_name fn (attempt + Z.of_nat k)) = true) ->
    exists_ (probe_name fn (attempt + Z.of_nat n)) = false ->
    (n < fuel)%nat ->
    get_unique_filename_loop fuel fn exists_ attempt
    = Some (probe_name fn (attempt + Z.of_nat n)).
Proof.
  induction n as [|n IH]; intros attempt fuel Htaken Hfree Hfuel;
    (destruct fuel as [|fuel]; [lia|]); simpl.
  - rewrite Z.add_0_r in Hfree. rewrite Hfree. simpl.
    rewrite Z.add_0_r. reflexivity.
  - pose proof (Htaken 0%nat ltac:(lia)) as H0.
    rewrite Z.add_0_r in H0. rewrite H0. simpl.
    replace (attempt + Z.of_nat (S n)) with (attempt + 1 + Z.of_nat n) by lia.
    apply IH; [| | lia].
    + intros k Hk.
      replace (attempt + 1 + Z.of_nat k) with (attempt + Z.of_nat (S k)) by lia.
      apply Htaken. lia.
    + replace (attempt + 1 + Z.of_nat n) with (attempt + Z.of_nat (S n)) by lia.
      exact Hfree.
Qed.

(** If some probed name is free, there is a first one. *)
Lemma first_free_probe (fn : string) (exists_ : string -> bool) (m : nat) :
  forall attempt : Z,
    exists_ (probe_name fn (attempt + Z.of_nat m)) = false ->
    exists n,
      (n <= m)%nat
      /\ exists_ (probe_name fn (attempt + Z.of_nat n)) = false
      /\ forall k, (k < n)%nat ->
                   exists_ (probe_name fn (attempt + Z.of_nat k)) = true.
Proof.
  induction m as [|m IH]; intros attempt Hfree.
  - exists 0%nat. repeat split; [lia | exact Hfree | intros k Hk; lia].
  - destruct (exists_ (probe_name fn attempt)) eqn:E.
    + replace (attempt + Z.of_nat (S m)) with (attempt + 1 + Z.of_nat m)
        in Hfree by lia.
      destruct (IH (attempt + 1) Hfree) as [n (Hle & Hn & Hbelow)].
      exists (S n). split; [lia|]. split.
      * replace (attempt + Z.of_nat (S n)) with (attempt + 1 + Z.of_nat n)
          by lia.
        exact Hn.
      * intros [|k] Hk.
        -- rewrite Z.add_0_r. exact E.
        -- replace (attempt + Z.of_nat (S k))
             with (attempt + 1 + Z.of_nat k) by lia.
           apply Hbelow. lia.
    + exists 0%nat. split; [lia|]. split.
      * rewrite Z.add_0_r. exact E.
      * intros k Hk. lia.
Qed.

(** C9: when the existence check is false on some probed name, the probed
    names being [fn], [fn-1], [fn-2], ..., there is a first such name, and
    [get_unique_filename] returns it once the loop is given the passes it
    takes: [fn] itself when that does not exist, otherwise the first of
    [fn-1], [fn-2], ... that does not. With [a] and [a-1] taken, [a]
    yields [a-2]. *)
Theorem get_unique_filename_first_free
    (fn : string) (exists_ : string -> bool) :
  (exists m : nat, exists_ (probe_name fn (Z.of_nat m)) = false) ->
  probe_name fn 0 = fn
  /\ (forall k, 0 < k -> probe_name fn k = fn ++ "-" ++ Text.str_of_Z k)
  /\ (exists n : nat,
         exists_ (probe_name fn (Z.of_nat n)) = false
         /\ (forall k, (k < n)%nat ->
                       exists_ (probe_name fn (Z.of_nat k)) = true)
         /\ (exists_ fn = false -> n = 0%nat)
         /\ forall fuel, (n < fuel)%nat ->
              get_unique_filename fuel fn exists_
              = Some (probe_name fn (Z.of_nat n)))
  /\ get_unique_filename 3 "a" a_and_a1_taken = Some "a-2".
Proof.
  intros [m Hm].
  split; [apply probe_name_0|]. split; [apply probe_name_pos|].
  split; [|reflexivity].
  destruct (first_free_probe fn exists_ m 0 Hm) as [n (_ & Hn & Hbelow)].
  exists n. split; [exact Hn|]. split; [exact Hbelow|]. split.
  - intros Hfn. destruct n as [|n]; [reflexivity|].
    pose proof (Hbelow 0%nat ltac:(lia)) as H0.
    change (0 + Z.of_nat 0) with 0 in H0.
    rewrite probe_name_0 in H0. congruence.
  - intros fuel Hfuel. unfold get_unique_filename.
    exact (get_unique_filename_loop_first_free fn exists_ n 0 fuel
             Hbelow Hn Hfuel).
Qed.

(** ** [Download.pre_request] *)

(** With an output file whose name is not on disk, [os.path.getsize]
    raises. *)
Lemma pre_request_file_not_on_disk (disk : Disk)
    (request_headers : gmap string (option string)) (self : Download)
    (f : File) :
  _resume self = true ->
  _output_file self = Some f ->
  disk !! name f = None ->
  pre_request disk request_headers self
  = (Raise OSError, <["Accept-Encoding" := None]> request_headers, self).
Proof.
  intros Hr Hf Hd. unfold pre_request, getsize. rewrite Hr, Hf, Hd.
  reflexivity.
Qed.

(** An output file given at construction is not enough: when no file of
    its name is on disk, [os.path.getsize] raises [OSError] and
    [pre_request] with it. *)
Lemma pre_request_output_file_not_on_disk :
  pre_request ∅ ∅ (Download_init (Some partial_file) true nil 0)
  = (Raise OSError, <["Accept-Encoding" := None]> ∅,
     Download_init (Some partial_file) true nil 0)
  /\ ~ pre_request_returns_given_output_file.
Proof.
  split; [reflexivity|].
  intros Hreturns.
  destruct (Hreturns ∅ ∅ (Download_init (Some partial_file) true nil 0)
              partial_file eq_refl eq_refl) as (headers' & self' & Hrun).
  discriminate Hrun.
Qed.

(** C10 (amended): with [resume] set, [pre_request] raises when no output
    file was given ([None] has no [name]) and when no file of the output
    file's name is on disk ([os.path.getsize] fails), the
    [Accept-Encoding] entry already made and nothing else changed. With
    an output file whose name is on disk it returns; when the size is not
    zero the [Range] header is [bytes=<size>-] and the offset to resume
    from is the size; when the size is zero neither is touched. Nothing
    else of the download changes. *)
Theorem pre_request_resume (disk : Disk)
    (request_headers : gmap string (option string)) (self : Download) :
  _resume self = true ->
  (_output_file self = None ->
   pre_request disk request_headers self
   = (Raise AttributeError,
      <["Accept-Encoding" := None]> request_headers, self))
  /\ (forall f,
         _output_file self = Some f ->
         disk !! name f = None ->
         pre_request disk request_headers self
         = (Raise OSError,
            <["Accept-Encoding" := None]> request_headers, self))
  /\ (forall f size,
         _output_file self = Some f ->
         disk !! name f = Some size ->
         exists headers' self',
           pre_request disk request_headers self = (Ok tt, headers', self')
           /\ headers' !! "Accept-Encoding" = Some None
           /\ _output_file self' = Some f
           /\ _resume self' = true
           /\ _progress self' = _progress self
           /\ _progress_reporter self' = _progress_reporter self
           /\ (size <> 0 ->
               headers' !! "Range"
               = Some (Some ("bytes=" ++ Text.str_of_Z size ++ "-"))
               /\ _resumed_from self' = size)
           /\ (size = 0 ->
               headers' !! "Range" = request_headers !! "Range"
               /\ _resumed_from self' = _resumed_from self)).
Proof.
  intros Hresume. split; [|split].
  - unfold pre_request. rewrite Hresume. intros ->. reflexivity.
  - intros f Hf Hd. apply (pre_request_file_not_on_disk _ _ _ f); assumption.
  - unfold pre_request. rewrite Hresume.
    intros f size Hf Hsize. rewrite Hf. unfold getsize. rewrite Hsize.
    destruct (Z.eqb_spec size 0) as [Hz|Hz]; cbn [negb].
    + eexists _, _. split; [reflexivity|].
      split; [apply lookup_insert_eq|].
      split; [exact Hf|]. split; [exact Hresume|].
      split; [reflexivity|]. split; [reflexivity|].
      split; [contradiction|].
      intros _. split; [|reflexivity].
      apply lookup_insert_ne. discriminate.
    + eexists _, _. split; [reflexivity|]. split.
      { rewrite lookup_insert_ne by discriminate. apply lookup_insert_eq. }
      cbn [with_resumed_from _output_file _resume _progress
           _progress_reporter _resumed_from].
      split; [exact Hf|]. split; [exact Hresume|].
      split; [reflexivity|]. split; [reflexivity|].
      split; [|contradiction].
      intros _. split; [apply lookup_insert_eq | reflexivity].
Qed.

(** Without [resume], no file is looked at and no range is asked for. *)
Lemma pre_request_fresh (disk : Disk)
    (request_headers : gmap string (option string)) (self : Download) :
  _resume self = false ->
  pre_request disk request_headers self
  = (Ok tt, <["Accept-Encoding" := None]> request_headers, self).
Proof. intros H. unfold pre_request. rewrite H. reflexivity. Qed.

(** * Further properties *)

(** ** Numbers as text *)

Ltac digit_arith :=
  unfold Text.digit_value;
  match goal with
  | |- context [Z.of_nat (nat_of_ascii ?c)] =>
      let v := eval vm_compute in (Z.of_nat (nat_of_ascii c)) in
      change (Z.of_nat (nat_of_ascii c)) with v
  end;
  lia.

Lemma int_of_digits_from_uint_acc (d : Decimal.uint) :
  forall p : positive,
    Text.int_of_digits_from (Z.pos p) (NilEmpty.string_of_uint d)
    = Z.pos (Pos.of_uint_acc d p).
Proof.
  induction d; intros p; cbn [NilEmpty.string_of_uint Pos.of_uint_acc];
    try reflexivity;
    cbn [Text.int_of_digits_from]; rewrite <- IHd; f_equal; digit_arith.
Qed.

Lemma int_of_digits_uint (d : Decimal.uint) :
  Text.int_of_digits_from 0 (NilEmpty.string_of_uint d)
  = Z.of_N (Pos.of_uint d).
Proof.
  induction d; cbn [NilEmpty.string_of_uint Pos.of_uint]; try reflexivity;
    cbn [Text.int_of_digits_from Z.of_N];
    try (rewrite <- int_of_digits_from_uint_acc; f_equal; digit_arith).
  rewrite <- IHd. f_equal.
Qed.


Lemma nil_zero_string_of_uint (d : Decimal.uint) :
  d <> Decimal.Nil ->
  NilZero.string_of_uint d = NilEmpty.string_of_uint d.
Proof. destruct d; [contradiction | reflexivity ..]. Qed.

(** [int(str(n)) == n] for a number that is not negative, and [str(n)] is
    a run of digits. *)
Lemma int_of_digits_str (n : Z) :
  0 <= n -> Text.int_of_digits (Text.str_of_Z n) = n.
Proof.
  intros Hn. destruct n as [|p|p]; [reflexivity | | lia].
  unfold Text.int_of_digits, Text.str_of_Z. cbn [Z.to_int NilZero.string_of_int].
  rewrite nil_zero_string_of_uint by apply Unsigned.to_uint_nonnil.
  rewrite int_of_digits_uint, Unsigned.of_to. reflexivity.
Qed.


(** ** [parse_content_range], further *)


Lemma length_append (a b : string) :
  String.length (a ++ b) = (String.length a + String.length b)%nat.
Proof.
  induction a as [|x a IH]; [reflexivity|].
  change (S (String.length (a ++ b))
          = S (String.length a + String.length b)).
  rewrite IH. reflexivity.
Qed.

(** What is beyond the limit stays so when it grows longer. *)
Lemma beyond_limit_longer (limit : Z) (short long : string) :
  (String.length short <= String.length long)%nat ->
  Text.beyond_limit limit short = true ->
  Text.beyond_limit limit long = true.
Proof.
  unfold Text.beyond_limit. intros Hle H.
  apply andb_prop in H as [H Hlimit]. apply andb_prop in H as [H640 Hpos].
  apply Z.ltb_lt in H640, Hlimit.
  rewrite Hpos, andb_true_r. apply andb_true_intro.
  split; apply Z.ltb_lt; lia.
Qed.

Lemma number_in_not_longer (text digits : string) :
  number_in text digits ->
  (String.length digits <= String.length text)%nat.
Proof.
  intros [_ (before & after & ->)]. rewrite !length_append. lia.
Qed.

(** Under the limit the function ends as it does without one, unless a
    number of the header, or the offset that goes into the message, has
    more digits than the limit allows: then it raises [ValueError]. *)
Lemma parse_content_range_under_limit_cases (limit : Z)
    (content_range : string) (resumed_from : Z) :
  parse_content_range_under_limit limit content_range resumed_from
  = parse_content_range content_range resumed_from
  \/ (parse_content_range_under_limit limit content_range resumed_from
      = Raise ValueError
      /\ exists digits,
           Text.beyond_limit limit digits = true
           /\ (number_in content_range digits
               \/ digits = Text.str_of_Z (Z.abs resumed_from))).
Proof.
  unfold parse_content_range_under_limit, parse_content_range.
  destruct (match_content_range content_range) as [g|] eqn:G;
    [|left; reflexivity].
  apply match_content_range_grammar in G
    as (N1 & N2 & N3 & tail & Htail & Htext).
  unfold content_range_text in Htext.
  unfold Text.int_under_limit.
  destruct (Text.beyond_limit limit (first_byte_pos g)) eqn:B1.
  { right. split; [reflexivity|]. exists (first_byte_pos g).
    split; [exact B1|]. left. split; [exact N1|].
    eexists "bytes ", _. exact Htext. }
  cbn [bind].
  destruct (Text.beyond_limit limit (last_byte_pos g)) eqn:B2.
  { right. split; [reflexivity|]. exists (last_byte_pos g).
    split; [exact B2|]. left. split; [exact N2|].
    exists ("bytes " ++ first_byte_pos g ++ "-"). eexists.
    rewrite !append_assoc. exact Htext. }
  cbn [bind].
  assert (Hrest : forall (invalid unexpected : bool) (v : Z),
             (if invalid then Raise (ContentRangeError InvalidReturned)
              else if unexpected
              then _ <- Text.format_under_limit limit resumed_from ;;
                   Raise (ContentRangeError UnexpectedReturned)
              else Ok v)
             = (if invalid then Raise (ContentRangeError InvalidReturned)
                else if unexpected
                then Raise (ContentRangeError UnexpectedReturned)
                else Ok v)
             \/ ((if invalid then Raise (ContentRangeError InvalidReturned)
                  else if unexpected
                  then _ <- Text.format_under_limit limit resumed_from ;;
                       Raise (ContentRangeError UnexpectedReturned)
                  else Ok v)
                 = Raise ValueError
                 /\ exists digits,
                      Text.beyond_limit limit digits = true
                      /\ (number_in content_range digits
                          \/ digits = Text.str_of_Z (Z.abs resumed_from)))).
  { intros [|] [|] v; try (left; reflexivity).
    unfold Text.format_under_limit.
    destruct (Text.beyond_limit limit (Text.str_of_Z (Z.abs resumed_from)))
      eqn:B4; [|left; reflexivity].
    right. split; [reflexivity|].
    exists (Text.str_of_Z (Z.abs resumed_from)). split; [exact B4|].
    right. reflexivity. }
  destruct (instance_length g) as [len|] eqn:L.
  - destruct (Text.beyond_limit limit len) eqn:B3.
    { right. split; [reflexivity|]. exists len.
      split; [exact B3|]. left. split; [exact (N3 len eq_refl)|].
      exists ("bytes " ++ first_byte_pos g ++ "-" ++ last_byte_pos g ++ "/"),
        tail.
      rewrite !append_assoc. exact Htext. }
    cbn [bind option_map]. cbv zeta. apply Hrest.
  - cbn [bind option_map]. cbv zeta. apply Hrest.
Qed.

(** X1: however the interpreter limits the digits of an integer in text,
    [parse_content_range] ends in one of three ways, whatever the header
    and the offset: it returns a total size greater than the offset; it
    raises [ContentRangeError]; or it raises [ValueError], which takes a
    number in the header, or the offset, with more digits than the limit
    allows. Unless it ends in [ValueError] it ends as it does without a
    limit, and so it does for a header and an offset that are themselves
    no longer than the limit allows. *)
Theorem parse_content_range_size_or_error (limit : Z)
    (content_range : string) (resumed_from : Z) :
  ((exists v,
       parse_content_range_under_limit limit content_range resumed_from
       = Ok v
       /\ resumed_from < v)
   \/ (exists why,
         parse_content_range_under_limit limit content_range resumed_from
         = Raise (ContentRangeError why))
   \/ (parse_content_range_under_limit limit content_range resumed_from
       = Raise ValueError
       /\ exists digits,
            Text.beyond_limit limit digits = true
            /\ (number_in content_range digits
                \/ digits = Text.str_of_Z (Z.abs resumed_from))))
  /\ (parse_content_range_under_limit limit content_range resumed_from
      <> Raise ValueError ->
      parse_content_range_under_limit limit content_range resumed_from
      = parse_content_range content_range resumed_from)
  /\ (Text.beyond_limit limit content_range = false ->
      Text.beyond_limit limit (Text.str_of_Z (Z.abs resumed_from)) = false ->
      parse_content_range_under_limit limit content_range resumed_from
      = parse_content_range content_range resumed_from).
Proof.
  pose proof (parse_content_range_under_limit_cases limit content_range
                resumed_from) as Hcases.
  split; [|split].
  - destruct Hcases as [-> | Hvalue]; [|right; right; exact Hvalue].
    destruct (parse_content_range content_range resumed_from) as [v|e] eqn:E.
    + left. exists v. split; [reflexivity|].
      apply parse_content_range_ok in E as [g (_ & Hfirst & Hlt & _ & Hv)].
      lia.
    + right. left.
      destruct (parse_content_range_raises_only _ _ _ E) as [why ->].
      exists why. reflexivity.
  - intros Hnot. destruct Hcases as [Heq | [Hvalue _]];
      [exact Heq | contradiction].
  - intros Hheader Hoffset.
    destruct Hcases as [Heq | [_ (digits & Hbeyond & Hwhere)]];
      [exact Heq|].
    exfalso. destruct Hwhere as [Hin | ->].
    + apply number_in_not_longer in Hin.
      rewrite (beyond_limit_longer limit digits content_range Hin Hbeyond)
        in Hheader.
      discriminate Hheader.
    + rewrite Hbeyond in Hoffset. discriminate Hoffset.
Qed.

(** X2: [parse_content_range] raises with the message of an invalid
    format exactly for the texts that are not [bytes], a space, a run of
    digits, a dash, a run of digits, a slash and a run of digits or a
    star, with at most one line feed after that. *)
Theorem parse_content_range_invalid_format (content_range : string)
    (resumed_from : Z) :
  parse_content_range content_range resumed_from
  = Raise (ContentRangeError InvalidFormat)
  <-> ~ exists g tail,
        is_number (first_byte_pos g) /\ is_number (last_byte_pos g)
        /\ (forall len, instance_length g = Some len -> is_number len)
        /\ ends_text tail
        /\ content_range = content_range_text g tail.
Proof.
  split.
  - intros Hraise [g (tail & N1 & N2 & N3 & Htail & Htext)].
    assert (Hg : match_content_range content_range = Some g).
    { apply match_content_range_grammar.
      split; [exact N1|]. split; [exact N2|]. split; [exact N3|].
      exists tail. split; assumption. }
    unfold parse_content_range in Hraise. rewrite Hg in Hraise.
    cbv zeta in Hraise.
    destruct (_ || _) in Hraise; [discriminate Hraise|].
    destruct (_ || _) in Hraise; discriminate Hraise.
  - intros Hnot. unfold parse_content_range.
    destruct (match_content_range content_range) as [g|] eqn:E;
      [|reflexivity].
    exfalso. apply Hnot.
    apply match_content_range_grammar in E
      as (N1 & N2 & N3 & tail & Htail & Htext).
    exists g, tail. auto.
Qed.



(** ** [get_unique_filename], further *)

Lemma append_cancel_l (a b c : string) : a ++ b = a ++ c -> b = c.
Proof.
  induction a as [|x a IH]; [exact (fun H => H)|].
  change (String x (a ++ b) = String x (a ++ c) -> b = c).
  intros H; inversion H. auto.
Qed.

(** Different attempts probe different names. *)
Lemma probe_name_inj (fn : string) (j k : Z) :
  0 <= j -> 0 <= k -> probe_name fn j = probe_name fn k -> j = k.
Proof.
  intros Hj Hk H. unfold probe_name in H. apply append_cancel_l in H.
  destruct (Z.ltb_spec 0 j); destruct (Z.ltb_spec 0 k);
    try discriminate H; try lia.
  apply (append_cancel_l "-") in H.
  rewrite <- (int_of_digits_str j), <- (int_of_digits_str k), H by lia.
  reflexivity.
Qed.

(** What the loop returns is the first free name from [attempt] on. *)
Lemma get_unique_filename_loop_sound (fn : string)
    (exists_ : string -> bool) (fuel : nat) :
  forall (attempt : Z) (path : string),
    get_unique_filename_loop fuel fn exists_ attempt = Some path ->
    exists n : nat,
      (n < fuel)%nat
      /\ path = probe_name fn (attempt + Z.of_nat n)
      /\ exists_ path = false
      /\ forall k, (k < n)%nat ->
                   exists_ (probe_name fn (attempt + Z.of_nat k)) = true.
Proof.
  induction fuel as [|fuel IH]; intros attempt path; simpl; [discriminate|].
  destruct (exists_ (probe_name fn attempt)) eqn:E; simpl.
  - intros H. destruct (IH _ _ H) as [n (Hn & Hpath & Hfree & Hbelow)].
    exists (S n). split; [lia|]. split.
    { rewrite Hpath. f_equal. lia. }
    split; [exact Hfree|].
    intros [|k] Hk.
    + rewrite Z.add_0_r. exact E.
    + replace (attempt + Z.of_nat (S k)) with (attempt + 1 + Z.of_nat k)
        by lia.
      apply Hbelow. lia.
  - intros H; inversion H; subst path.
    exists 0%nat. rewrite Z.add_0_r.
    split; [lia|]. split; [reflexivity|]. split; [exact E|].
    intros k Hk. lia.
Qed.

Lemma get_unique_filename_loop_none (fn : string)
    (exists_ : string -> bool) (fuel : nat) :
  forall attempt : Z,
    get_unique_filename_loop fuel fn exists_ attempt = None ->
    forall k, (k < fuel)%nat ->
              exists_ (probe_name fn (attempt + Z.of_nat k)) = true.
Proof.
  induction fuel as [|fuel IH]; intros attempt; simpl; [intros _ k Hk; lia|].
  destruct (exists_ (probe_name fn attempt)) eqn:E; simpl; [|discriminate].
  intros H [|k] Hk.
  - rewrite Z.add_0_r. exact E.
  - replace (attempt + Z.of_nat (S k)) with (attempt + 1 + Z.of_nat k) by lia.
    apply (IH _ H). lia.
Qed.

(** X4: a name returned by [get_unique_filename] does not exist; it is
    [fn] or [fn-k] for a [k] below the number of passes made, and every
    name probed before it exists. *)
Theorem get_unique_filename_is_first_free (fuel : nat) (fn : string)
    (exists_ : string -> bool) (path : string) :
  get_unique_filename fuel fn exists_ = Some path ->
  exists_ path = false
  /\ exists k : nat,
       (k < fuel)%nat
       /\ path = (if (k =? 0)%nat then fn
                  else fn ++ "-" ++ Text.str_of_Z (Z.of_nat k))
       /\ forall j, (j < k)%nat ->
                    exists_ (probe_name fn (Z.of_nat j)) = true.
Proof.
  intros H. unfold get_unique_filename in H.
  destruct (get_unique_filename_loop_sound _ _ _ _ _ H)
    as [n (Hn & Hpath & Hfree & Hbelow)].
  split; [exact Hfree|]. exists n. split; [exact Hn|]. split.
  - rewrite Hpath. simpl (0 + _).
    destruct n as [|n]; [apply probe_name_0|].
    apply probe_name_pos. lia.
  - exact Hbelow.
Qed.

(** Among the first [size disk + 1] names probed, one is not on disk. *)
Lemma some_probe_not_on_disk (disk : Disk) (fn : string) :
  exists m : nat,
    (m <= size disk)%nat
    /\ path_exists disk (probe_name fn (Z.of_nat m)) = false.
Proof.
  assert (Hsearch : forall n : nat,
             (forall k, (k < n)%nat ->
                path_exists disk (probe_name fn (Z.of_nat k)) = true)
             \/ exists m, (m < n)%nat
                  /\ path_exists disk (probe_name fn (Z.of_nat m)) = false).
  { induction n as [|n [IH | [m [Hm Hfree]]]].
    - left. intros k Hk. lia.
    - destruct (path_exists disk (probe_name fn (Z.of_nat n))) eqn:E.
      + left. intros k Hk.
        destruct (Nat.eq_dec k n) as [->|]; [exact E | apply IH; lia].
      + right. exists n. split; [lia | exact E].
    - right. exists m. split; [lia | exact Hfree]. }
  destruct (Hsearch (S (size disk))) as [Hall | [m [Hm Hfree]]];
    [|exists m; split; [lia | exact Hfree]].
  exfalso.
  set (names := (fun k : nat => probe_name fn (Z.of_nat k))
                  <$> seq 0 (S (size disk))).
  assert (Hdup : NoDup names).
  { apply NoDup_fmap_2_strong; [|apply NoDup_seq].
    intros j k _ _ Hjk. apply probe_name_inj in Hjk; lia. }
  assert (Hsub : (list_to_set names : gset string) ⊆ dom disk).
  { intros path Hpath. apply elem_of_list_to_set in Hpath.
    apply list_elem_of_fmap in Hpath as [k [-> Hk]].
    apply elem_of_seq in Hk.
    specialize (Hall k ltac:(lia)). unfold path_exists in Hall.
    apply elem_of_dom.
    destruct (disk !! probe_name fn (Z.of_nat k)); [eauto | discriminate]. }
  apply subseteq_size in Hsub.
  rewrite size_list_to_set in Hsub by exact Hdup.
  rewrite size_dom in Hsub.
  unfold names in Hsub. rewrite length_fmap, length_seq in Hsub. lia.
Qed.

Lemma free_name_within_disk_size (disk : Disk) (fn : string) :
  exists path,
    get_unique_filename (S (size disk)) fn (path_exists disk) = Some path
    /\ disk !! path = None.
Proof.
  destruct (some_probe_not_on_disk disk fn) as [m [Hm Hfree]].
  destruct (first_free_probe fn (path_exists disk) m 0 Hfree)
    as [n (Hle & Hn & Hbelow)].
  exists (probe_name fn (0 + Z.of_nat n)). split.
  - unfold get_unique_filename.
    apply get_unique_filename_loop_first_free; [exact Hbelow | exact Hn | lia].
  - unfold path_exists in Hn.
    destruct (disk !! probe_name fn (0 + Z.of_nat n)); [discriminate|].
    reflexivity.
Qed.

(** X5: on a disk, which holds finitely many files, the search for a free
    name ends within one pass more than there are files, with a name that
    is not on the disk. *)
Theorem get_unique_filename_on_disk (disk : Disk) (fn : string) :
  exists path,
    get_unique_filename (S (size disk)) fn (path_exists disk) = Some path
    /\ disk !! path = None.
Proof. apply free_name_within_disk_size. Qed.

(** ** [Download.start] *)

(** The reporter only ever adds to what the progress file holds. *)
Lemma report_speed_appends (now : Q) (progress : Progress)
    (self : ProgressReporter) :
  exists more,
    output (snd (report_speed now progress self))
    = (output self ++ more)%list.
Proof.
  unfold report_speed.
  destruct (Qle_bool (_update_interval self) (now - _prev_time self)).
  - destruct (status_line now progress self) as [line|e]; cbn [bind].
    + destruct (spinner_glyph _) as [glyph|e].
      * eexists. reflexivity.
      * exists nil. rewrite app_nil_r. reflexivity.
    + exists nil. rewrite app_nil_r. reflexivity.
  - destruct (spinner_glyph _) as [glyph|e].
    + eexists. reflexivity.
    + exists nil. rewrite app_nil_r. reflexivity.
Qed.

Lemma sum_up_appends (progress : Progress) (self : ProgressReporter) :
  exists more,
    output (snd (sum_up progress self)) = (output self ++ more)%list.
Proof.
  unfold sum_up.
  destruct (py_sub_times _ _) as [time_taken|e].
  - destruct (humanize_optional_bytes (total_size progress)) as [total|e];
      cbn [bind].
    + destruct (py_div _ _) as [speed|e]; cbn [bind snd output write].
      * rewrite <- app_assoc. eexists. reflexivity.
      * eexists. reflexivity.
    + eexists. reflexivity.
  - exists nil. rewrite app_nil_r. reflexivity.
Qed.

Lemma report_appends (now : Q) (progress : Progress)
    (self : ProgressReporter) :
  exists more,
    output (snd (report now progress self)) = (output self ++ more)%list.
Proof.
  unfold report. destruct (has_finished progress).
  - destruct (sum_up_appends progress self) as [more H].
    destruct (sum_up progress self). exists more. exact H.
  - destruct (report_speed_appends now progress self) as [more H].
    destruct (report_speed now progress self). exists more. exact H.
Qed.

(** A wake inside the update interval, the download still running. *)
Lemma report_inside_interval (now : Q) (progress : Progress)
    (self : ProgressReporter) (glyph : string) :
  has_finished progress = false ->
  Qle_bool (_update_interval self) (now - _prev_time self) = false ->
  spinner_glyph (_spinner_pos self) = Ok glyph ->
  report now progress self
  = (Ok true,
     advance_spinner
       (write (CLEAR_LINE ++ glyph ++ " " ++ _status_line self) self)).
Proof.
  intros Hrun Hin Hg. unfold report. rewrite Hrun.
  rewrite (report_speed_inside_interval now progress self glyph Hin Hg).
  reflexivity.
Qed.

(** From [Progress.started] on, [start] changes the progress and the
    reporter only, and when it returns the progress is the one
    [Progress.started] made. *)
Lemma start_streaming_keeps (t_started t_report : Q) (f : File)
    (total : option Z) (self self' : Download) (r : result File) :
  start_streaming t_started t_report f total self = (r, self') ->
  _output_file self' = _output_file self
  /\ _resume self' = _resume self
  /\ _resumed_from self' = _resumed_from self
  /\ forall f', r = Ok f' ->
       f' = f
       /\ started t_started (_resumed_from self) total (_progress self)
          = Ok (_progress self').
Proof.
  unfold start_streaming.
  destruct (started t_started (_resumed_from self) total (_progress self))
    as [p|e].
  - destruct (report _ _ _) as [r0 reporter].
    intros H; inversion H; subst r self'. simpl.
    split; [reflexivity|]. split; [reflexivity|]. split; [reflexivity|].
    intros f' Hr. destruct r0; simpl in Hr; inversion Hr.
    split; reflexivity.
  - intros H; inversion H; subst r self'.
    split; [reflexivity|]. split; [reflexivity|]. split; [reflexivity|].
    intros f' Hr. discriminate Hr.
Qed.

(** X6: [start] on a download that resumes into a given file, answered
    with status 206, never touches the disk and keeps the offset to resume
    from, however it ends; when the [Content-Range] of the answer is
    refused, it raises that [ContentRangeError] with the download left as
    it was. *)
Theorem start_resumed_keeps_file (fuel : nat) (t_started t_report : Q)
    (response : Response) (disk disk' : Disk) (self self' : Download)
    (f : File) (r : result File) :
  _output_file self = Some f ->
  _resume self = true ->
  status_code response = PARTIAL_CONTENT ->
  start fuel t_started t_report response disk self = Some (r, self', disk') ->
  disk' = disk
  /\ _output_file self' = Some f
  /\ _resumed_from self' = _resumed_from self
  /\ forall content_range e,
       time_started (_progress self) = None ->
       headers response !! "Content-Range" = Some content_range ->
       content_range <> EmptyString ->
       parse_content_range content_range (_resumed_from self) = Raise e ->
       r = Raise e /\ self' = self.
Proof.
  intros Hf Hresume Hstatus. unfold start.
  destruct (truthy_time (time_started (_progress self))) eqn:G.
  { intros H; inversion H; subst.
    split; [reflexivity|]. split; [exact Hf|]. split; [reflexivity|].
    intros cr e Hnone. rewrite Hnone in G. discriminate G. }
  rewrite Hf. unfold start_given_file.
  rewrite Hresume, Hstatus, Z.eqb_refl. cbn [andb].
  destruct (headers response !! "Content-Range") as [content_range|].
  - destruct (Text.is_empty content_range) eqn:Hempty.
    + destruct (start_streaming _ _ _ _ _) as [r2 self2] eqn:E.
      apply start_streaming_keeps in E as (Ho & _ & Hr & _).
      intros H; inversion H; subst.
      split; [reflexivity|]. split; [congruence|]. split; [exact Hr|].
      intros cr e _ Hcr Hne. inversion Hcr; subst cr.
      destruct content_range; [contradiction | discriminate Hempty].
    + destruct (parse_content_range content_range (_resumed_from self))
        as [n|e] eqn:P.
      * destruct (start_streaming _ _ _ _ _) as [r2 self2] eqn:E.
        apply start_streaming_keeps in E as (Ho & _ & Hr & _).
        intros H; inversion H; subst.
        split; [reflexivity|]. split; [congruence|]. split; [exact Hr|].
        intros cr e _ Hcr _ Hraise. inversion Hcr; subst cr.
        rewrite P in Hraise. discriminate Hraise.
      * intros H; inversion H; subst.
        split; [reflexivity|]. split; [exact Hf|]. split; [reflexivity|].
        intros cr e' _ Hcr _ Hraise. inversion Hcr; subst cr.
        rewrite P in Hraise. inversion Hraise. split; reflexivity.
  - destruct (start_streaming _ _ _ _ _) as [r2 self2] eqn:E.
    apply start_streaming_keeps in E as (Ho & _ & Hr & _).
    intros H; inversion H; subst.
    split; [reflexivity|]. split; [congruence|]. split; [exact Hr|].
    intros cr e _ Hcr. discriminate Hcr.
Qed.

(** X7: [start] on a given, open file that does not resume (no resume
    asked for, or an answer other than 206) sets the offset to zero and
    empties the file on disk; for a file that cannot seek the disk stays as
    it is and no error comes of it. Either way the progress is started
    from zero with the declared length, the line that names the file is
    written to the progress file, and [start] ends as its first report
    ends: it returns the file whenever that report returns, which it does
    inside the update interval. *)
Theorem start_fresh_truncates (fuel : nat) (t_started t_report : Q)
    (response : Response) (disk : Disk) (self : Download) (f : File) :
  _output_file self = Some f ->
  closed f = false ->
  _resume self = false \/ status_code response <> PARTIAL_CONTENT ->
  time_started (_progress self) = None ->
  exists r self' p,
    start fuel t_started t_report response disk self
    = Some (r, self', if seekable f then <[name f := 0]> disk else disk)
    /\ _resumed_from self' = 0
    /\ _output_file self' = Some f
    /\ started t_started 0 (declared_length response) (_progress self)
       = Ok p
    /\ _progress self' = p
    /\ downloaded p = 0
    /\ resumed_from p = 0
    /\ time_started p = Some t_started
    /\ r = (_ <- fst (report t_report p
                        (write (saving_to f) (_progress_reporter self))) ;;
            Ok f)
    /\ (exists more,
           output (_progress_reporter self')
           = (output (_progress_reporter self) ++ saving_to f :: more)%list)
    /\ (time_finished (_progress self) = None ->
        Qle_bool (_update_interval (_progress_reporter self))
          (t_report - _prev_time (_progress_reporter self)) = false ->
        (_spinner_pos (_progress_reporter self) < String.length SPINNER)%nat ->
        r = Ok f).
Proof.
  intros Hf Hopen Hfresh Hguard. unfold start. rewrite Hguard, Hf.
  cbn [truthy_time]. unfold start_given_file.
  assert (Hcond : _resume self && (status_code response =? PARTIAL_CONTENT)
                  = false).
  { destruct Hfresh as [-> | Hs]; [reflexivity|].
    apply andb_false_iff. right. apply Z.eqb_neq. exact Hs. }
  rewrite Hcond, Hopen. fold (declared_length response).
  set (p := {| downloaded := 0;
               total_size :=
                 match declared_length response with
                 | Some n => Some n
                 | None => total_size (_progress self)
                 end;
               resumed_from := 0;
               total_size_humanized :=
                 match declared_length response with
                 | Some n => humanize_bytes (inject_Z n)
                 | None => total_size_humanized (_progress self)
                 end;
               time_started := Some t_started;
               time_finished := time_finished (_progress self) |}).
  assert (Hp : started t_started 0 (declared_length response)
                 (_progress self) = Ok p).
  { unfold started. rewrite Hguard. reflexivity. }
  assert (Hstream : forall disk1 : Disk,
             (let (r0, self2) :=
                start_streaming t_started t_report f
                  (declared_length response) (with_resumed_from 0 self) in
              Some (r0, self2, disk1))
             = Some ((_ <- fst (report t_report p
                                  (write (saving_to f)
                                     (_progress_reporter self))) ;; Ok f),
                     with_progress_reporter
                       (snd (report t_report p
                               (write (saving_to f)
                                  (_progress_reporter self))))
                       (with_progress p (with_resumed_from 0 self)),
                     disk1)).
  { intros disk1. unfold start_streaming.
    cbn [with_resumed_from _resumed_from _progress _progress_reporter
         with_progress].
    rewrite Hp. fold (saving_to f).
    destruct (report t_report p
                (write (saving_to f) (_progress_reporter self)))
      as [r0 reporter].
    reflexivity. }
  eexists _, _, p. split.
  { destruct (seekable f); apply Hstream. }
  split; [reflexivity|]. split; [exact Hf|]. split; [exact Hp|].
  split; [reflexivity|]. split; [reflexivity|]. split; [reflexivity|].
  split; [reflexivity|]. split; [reflexivity|]. split.
  { destruct (report_appends t_report p
                (write (saving_to f) (_progress_reporter self)))
      as [more Hmore].
    exists more. cbn [_progress_reporter with_progress_reporter].
    rewrite Hmore. cbn [output write]. rewrite <- app_assoc. reflexivity. }
  intros Hfin Hin Hpos.
  destruct (spinner_glyph_in_range _ Hpos) as [glyph Hg].
  rewrite (report_inside_interval t_report p _ glyph);
    [reflexivity | | exact Hin | exact Hg].
  unfold has_finished. subst p. cbn [time_finished]. rewrite Hfin.
  reflexivity.
Qed.

(** X8: [start] on a download without an output file opens a file under a
    name that was not on the disk, created empty, every other file left
    as it was. The name is the suggested one when that is free, else the
    first free one among [name-1], [name-2], ...; and on a disk the
    search for it ends within one pass more than there are files. *)
Theorem start_picks_new_file (t_started t_report : Q)
    (response : Response) (disk : Disk) (self : Download) :
  _output_file self = None ->
  time_started (_progress self) = None ->
  start (S (size disk)) t_started t_report response disk self <> None
  /\ forall fuel r self' disk',
       start fuel t_started t_report response disk self
       = Some (r, self', disk') ->
       exists f k,
         _output_file self' = Some f
         /\ closed f = false
         /\ name f = probe_name (suggested_filename response) (Z.of_nat k)
         /\ (forall j, (j < k)%nat ->
               disk !! probe_name (suggested_filename response) (Z.of_nat j)
               <> None)
         /\ disk !! name f = None
         /\ disk' = <[name f := 0]> disk
         /\ _resumed_from self' = _resumed_from self.
Proof.
  intros Hnone Hguard.
  assert (Hpick : forall fuel,
             start_pick_file fuel response disk self
             = match get_unique_filename fuel (suggested_filename response)
                       (path_exists disk) with
               | None => None
               | Some path =>
                   let f := {| name := path; closed := false;
                               seekable := true |} in
                   Some (f, with_output_file f self, <[path := 0]> disk)
               end) by reflexivity.
  split.
  - unfold start. rewrite Hguard, Hnone. cbn [truthy_time]. rewrite Hpick.
    destruct (free_name_within_disk_size disk (suggested_filename response))
      as [path [-> _]].
    cbv beta iota zeta. destruct (start_streaming _ _ _ _ _). discriminate.
  - intros fuel r self' disk'. unfold start.
    rewrite Hguard, Hnone. cbn [truthy_time]. rewrite Hpick.
    destruct (get_unique_filename fuel (suggested_filename response)
                (path_exists disk)) as [path|] eqn:E; [|discriminate].
    cbv beta iota zeta.
    destruct (start_streaming _ _ _ _ _) as [r2 self2] eqn:S.
    apply start_streaming_keeps in S as (Ho & _ & Hr & _).
    intros H; inversion H; subst.
    unfold get_unique_filename in E.
    apply get_unique_filename_loop_sound in E
      as [k (_ & Hpath & Hfree & Hbelow)].
    simpl (0 + _) in *.
    exists {| name := path; closed := false; seekable := true |}, k.
    split; [exact Ho|]. split; [reflexivity|]. split; [exact Hpath|].
    split.
    { intros j Hj. specialize (Hbelow j Hj). unfold path_exists in Hbelow.
      destruct (disk !! _); [discriminate | discriminate Hbelow]. }
    split.
    { unfold path_exists in Hfree. simpl.
      destruct (disk !! path); [discriminate Hfree | reflexivity]. }
    split; [reflexivity | exact Hr].
Qed.

(** [start] from [Progress.started] on, for a progress not yet started
    and a first report that falls inside the update interval. *)
Lemma start_streaming_ok (t_started t_report : Q) (f : File)
    (total : option Z) (self : Download) :
  time_started (_progress self) = None ->
  time_finished (_progress self) = None ->
  Qle_bool (_update_interval (_progress_reporter self))
    (t_report - _prev_time (_progress_reporter self)) = false ->
  (_spinner_pos (_progress_reporter self) < String.length SPINNER)%nat ->
  exists p reporter,
    started t_started (_resumed_from self) total (_progress self) = Ok p
    /\ start_streaming t_started t_report f total self
       = (Ok f, with_progress_reporter reporter (with_progress p self)).
Proof.
  intros Hs Hf Hin Hpos. unfold start_streaming.
  destruct (started t_started (_resumed_from self) total (_progress self))
    as [p|e] eqn:E.
  - apply started_sets_time in E as Htimes. destruct Htimes as [_ Hfin].
    destruct (spinner_glyph_in_range _ Hpos) as [glyph Hg].
    rewrite (report_inside_interval t_report p _ glyph).
    + eexists _, _. split; reflexivity.
    + unfold has_finished. rewrite Hfin, Hf. reflexivity.
    + exact Hin.
    + exact Hg.
  - unfold started in E. rewrite Hs in E. discriminate E.
Qed.


(** ** The whole transfer *)

(** The callback adds the length of each chunk and changes nothing
    else. *)
Lemma copy_chunks_ok (chunks : list string) :
  forall self,
    time_finished (_progress self) = None ->
    exists p,
      copy_chunks chunks self = (Ok tt, with_progress p self)
      /\ downloaded p = downloaded (_progress self) + received chunks
      /\ total_size p = total_size (_progress self)
      /\ resumed_from p = resumed_from (_progress self)
      /\ time_started p = time_started (_progress self)
      /\ time_finished p = None.
Proof.
  induction chunks as [|chunk chunks IH]; intros self Hf.
  - exists (_progress self). destruct self as [o r rf p rep]. simpl.
    repeat split; try reflexivity; try assumption. unfold received. simpl. lia.
  - simpl. unfold _on_progress, chunk_downloaded. rewrite Hf.
    match goal with
    | |- context [copy_chunks chunks ?s] =>
        destruct (IH s eq_refl) as [p (Hrun & Hd & Ht & Hr & Hs & Hfin)]
    end.
    exists p. rewrite Hrun. split; [reflexivity|].
    simpl in Hd, Ht, Hr, Hs.
    split; [|repeat split; assumption].
    rewrite Hd. unfold received. simpl. lia.
Qed.

(** [start] for a new download into a given, open file. *)
Lemma start_fresh_ok (fuel : nat) (now t_started t_report : Q)
    (written : list string) (f : File) (disk : Disk) (response : Response) :
  closed f = false ->
  Qle_bool 1 (t_report - now) = false ->
  exists p reporter disk1,
    started t_started 0 (declared_length response) Progress_init = Ok p
    /\ start fuel t_started t_report response disk
         (Download_init (Some f) false written now)
       = Some (Ok f,
               with_progress_reporter reporter
                 (with_progress p
                    (with_resumed_from 0
                       (Download_init (Some f) false written now))),
               disk1).
Proof.
  intros Hopen Hin. unfold start.
  set (self0 := Download_init (Some f) false written now).
  change (truthy_time (time_started (_progress self0))) with false.
  change (_output_file self0) with (Some f). cbv iota.
  unfold start_given_file.
  change (_resume self0) with false. cbn [andb]. rewrite Hopen.
  fold (declared_length response).
  destruct (start_streaming_ok t_started t_report f
              (declared_length response) (with_resumed_from 0 self0))
    as [p [reporter [Hstarted Hrun]]];
    [reflexivity | reflexivity | exact Hin | simpl; lia |].
  exists p, reporter.
  destruct (seekable f); rewrite Hrun; eexists; split;
    first [exact Hstarted | reflexivity].
Qed.

(** X10: one whole transfer into a given, open file without resuming:
    [start], the callback once for each chunk, [finish]. It goes through,
    and [interrupted] is then true exactly when the answer declared a
    length other than zero and the bytes received do not add up to it; it
    is false when no length was declared. (The first report falls inside
    the update interval.) *)
Theorem transfer_interrupted (fuel : nat)
    (now t_started t_report t_finished : Q) (written : list string)
    (f : File) (disk : Disk) (response : Response)
    (chunks : list string) :
  closed f = false ->
  Qle_bool 1 (t_report - now) = false ->
  exists v,
    transfer fuel t_started t_report t_finished response disk chunks
      (Download_init (Some f) false written now)
    = Some (Ok v)
    /\ truthy v
       = match declared_length response with
         | Some n => negb (n =? 0) && negb (n =? received chunks)
         | None => false
         end.
Proof.
  intros Hopen Hin. unfold transfer.
  destruct (start_fresh_ok fuel now t_started t_report written f disk
              response Hopen Hin)
    as [p [reporter [disk1 [Hstarted ->]]]].
  unfold started in Hstarted. simpl in Hstarted.
  inversion Hstarted as [Hp]. clear Hstarted.
  match goal with
  | |- context [copy_chunks chunks ?s] => set (self2 := s)
  end.
  destruct (copy_chunks_ok chunks self2)
    as [p3 (Hcopy & Hd & Ht & _ & Hs & Hfin)];
    [subst p; reflexivity|].
  rewrite Hcopy. unfold finish.
  cbn [with_progress _output_file self2 with_progress_reporter
       with_resumed_from Download_init].
  rewrite Hopen. unfold finished.
  cbn [_progress with_output_file with_progress].
  rewrite Hs, Hfin.
  replace (time_started (_progress self2)) with (Some t_started)
    by (subst p; reflexivity).
  eexists. split; [reflexivity|].
  cbn [interrupted _output_file with_progress with_output_file closed
       _progress total_size downloaded].
  rewrite Ht, Hd.
  replace (total_size (_progress self2)) with (declared_length response)
    by (subst p; simpl; destruct (declared_length response); reflexivity).
  replace (downloaded (_progress self2)) with 0 by (subst p; reflexivity).
  unfold py_and. cbn [truthy].
  destruct (declared_length response) as [n|]; [|reflexivity].
  cbn [py_optional_int truthy py_ne_optional].
  destruct (Z.eqb_spec n 0) as [->|Hn]; reflexivity.
Qed.

(** ** [Progress] over any sequence of calls *)

Lemma call_progress_sound (c : progress_call) (p p' : Progress) :
  progress_sound p -> call_progress c p = Ok p' -> progress_sound p'.
Proof.
  intros [Hfin Htotal] Hcall. destruct c as [now from total|size|now];
    simpl in Hcall.
  - unfold started in Hcall.
    destruct (time_started p) eqn:Hs; [discriminate|].
    inversion Hcall; subst p'; clear Hcall. split; simpl.
    + discriminate.
    + destruct total as [n|].
      * right. exists n. repeat split. discriminate.
      * destruct Htotal as [Hnone | [n (_ & _ & Hstarted)]];
          [left; exact Hnone | contradiction].
  - unfold chunk_downloaded in Hcall.
    destruct (time_finished p) eqn:Hf; [discriminate|].
    inversion Hcall; subst p'; clear Hcall. split; simpl.
    + intros H; congruence.
    + exact Htotal.
  - unfold finished in Hcall.
    destruct (time_started p) eqn:Hs; [|discriminate].
    destruct (time_finished p) eqn:Hf; [discriminate|].
    inversion Hcall; subst p'; clear Hcall. split; simpl.
    + intros _; congruence.
    + destruct Htotal as [Hnone | [n (H1 & H2 & H3)]];
        [left; exact Hnone | right; exists n; auto].
Qed.

(** X11: whatever methods of a new [Progress] are called, in whatever
    order and whether they raise or not: the finish time is never set
    without the start time; the humanized total is the placeholder [?]
    as long as no total size is known and the rendering of the total
    size once it is; and a total size is known only once started. *)
Theorem progress_sound_after_calls (calls : list progress_call) :
  progress_sound (after_calls calls Progress_init).
Proof.
  assert (Hgen : forall p, progress_sound p ->
                           progress_sound (after_calls calls p)).
  { induction calls as [|c calls IH]; intros p Hp; simpl; [exact Hp|].
    destruct (call_progress c p) as [p'|e] eqn:E.
    - apply IH. exact (call_progress_sound c p p' Hp E).
    - apply IH. exact Hp. }
  apply Hgen. split; simpl.
  - intros H; contradiction.
  - left. split; reflexivity.
Qed.

(** X12: once [finished] has gone through, no call of any method changes
    the [Progress] again: each of them raises. *)
Theorem progress_frozen_once_finished (calls : list progress_call)
    (now : Q) (p p' : Progress) :
  finished now p = Ok p' ->
  (forall c, exists e, call_progress c p' = Raise e)
  /\ after_calls calls p' = p'.
Proof.
  intros Hfinished.
  assert (Htimes : exists t0 t1,
             time_started p' = Some t0 /\ time_finished p' = Some t1).
  { destruct (finished_sets_time _ _ _ Hfinished) as [Hf Hs].
    unfold finished in Hfinished.
    destruct (time_started p) as [t0|]; [|discriminate].
    exists t0, now. split; assumption. }
  destruct Htimes as [t0 [t1 [Hs Hf]]].
  assert (Hraise : forall c, call_progress c p' = Raise AssertionError).
  { intros [now' from total|size|now']; simpl.
    - unfold started. rewrite Hs. reflexivity.
    - unfold chunk_downloaded. rewrite Hf. reflexivity.
    - unfold finished. rewrite Hs, Hf. reflexivity. }
  split.
  - intros c. exists AssertionError. apply Hraise.
  - induction calls as [|c calls IH]; simpl; [reflexivity|].
    rewrite Hraise. exact IH.
Qed.

(** X13: when the offsets and sizes handed to the methods are not
    negative, then after any sequence of calls on a new [Progress] the
    offset resumed from is not negative and the counter is not below it:
    the bytes of this session, [downloaded - resumed_from], never count
    as negative. *)
Theorem progress_counters_ordered (calls : list progress_call) :
  Forall call_not_negative calls ->
  0 <= resumed_from (after_calls calls Progress_init)
       <= downloaded (after_calls calls Progress_init).
Proof.
  assert (Hgen : forall p,
             Forall call_not_negative calls ->
             0 <= resumed_from p <= downloaded p ->
             0 <= resumed_from (after_calls calls p)
                  <= downloaded (after_calls calls p)).
  { induction calls as [|c calls IH]; intros p Hcalls Hp; simpl;
      [exact Hp|].
    apply Forall_cons_iff in Hcalls as [Hc Hcalls].
    destruct (call_progress c p) as [p'|e] eqn:E; [|apply IH; assumption].
    apply IH; [exact Hcalls|].
    destruct c as [now from total|size|now]; simpl in E, Hc.
    - unfold started in E. destruct (time_started p); [discriminate|].
      inversion E; subst p'. simpl. lia.
    - unfold chunk_downloaded in E.
      destruct (time_finished p); [discriminate|].
      inversion E; subst p'. simpl. lia.
    - unfold finished in E. destruct (time_started p); [|discriminate].
      destruct (time_finished p); [discriminate|].
      inversion E; subst p'. simpl. exact Hp. }
  intros Hcalls. apply Hgen; [exact Hcalls | simpl; lia].
Qed.

(** ** [Download.finish] *)

(** X14: [finish] goes through exactly when the output file is open and
    the progress is started and not finished; it then closes the file,
    marks the progress finished at the time read and keeps the counters,
    and a second [finish] raises [AssertionError] and changes nothing. *)
Theorem finish_once (now now' : Q) (self : Download) :
  (fst (finish now self) = Ok tt <->
   exists f t0,
     _output_file self = Some f /\ closed f = false
     /\ time_started (_progress self) = Some t0
     /\ time_finished (_progress self) = None)
  /\ (forall self',
        finish now self = (Ok tt, self') ->
        (exists f, _output_file self = Some f
                   /\ _output_file self'
                      = Some {| name := name f; closed := true;
                                seekable := seekable f |})
        /\ time_finished (_progress self') = Some now
        /\ downloaded (_progress self') = downloaded (_progress self)
        /\ total_size (_progress self') = total_size (_progress self)
        /\ finish now' self' = (Raise AssertionError, self')).
Proof.
  unfold finish. split.
  - destruct (_output_file self) as [f|]; simpl.
    + destruct (closed f) eqn:Hc; simpl.
      * split; [discriminate|].
        intros [f' [t0 (Hf & Hc' & _)]]. inversion Hf; subst. congruence.
      * unfold finished.
        destruct (time_started (_progress self)) as [t0|]; simpl.
        -- destruct (time_finished (_progress self)); simpl.
           ++ split; [discriminate|].
              intros [f' [t0' (_ & _ & _ & H)]]. discriminate H.
           ++ split; [|reflexivity]. intros _. exists f, t0. auto.
        -- split; [discriminate|].
           intros [f' [t0 (_ & _ & H & _)]]. discriminate H.
    + split; [discriminate|]. intros [f [t0 (H & _)]]. discriminate H.
  - intros self'. destruct (_output_file self) as [f|]; [|discriminate].
    destruct (closed f); [discriminate|].
    cbn [_progress with_output_file]. unfold finished.
    destruct (time_started (_progress self)) as [t0|]; [|discriminate].
    destruct (time_finished (_progress self)); [discriminate|].
    intros H; inversion H; subst self'. simpl.
    split; [exists f; split; reflexivity|]. repeat split.
Qed.

(** X15: [finish] on an open file whose progress was never started
    raises [AssertionError] only after it has closed the file: the file
    stays closed, and the progress, the offset and the reporter are as
    they were. *)
Theorem finish_before_start_closes (now : Q) (self : Download) (f : File) :
  _output_file self = Some f ->
  closed f = false ->
  time_started (_progress self) = None ->
  finish now self
  = (Raise AssertionError,
     with_output_file
       {| name := name f; closed := true; seekable := seekable f |} self)
  /\ _output_file (snd (finish now self))
     = Some {| name := name f; closed := true; seekable := seekable f |}
  /\ _progress (snd (finish now self)) = _progress self
  /\ _resumed_from (snd (finish now self)) = _resumed_from self
  /\ _progress_reporter (snd (finish now self)) = _progress_reporter self.
Proof.
  intros Hf Hc Hs. unfold finish. rewrite Hf, Hc.
  cbn [_progress with_output_file]. unfold finished. rewrite Hs.
  repeat split.
Qed.

(** ** [Download.pre_request], further *)

(** X16: however [pre_request] ends, the headers then ask for no content
    encoding, every header other than [Accept-Encoding] and [Range] is as
    it was, and so are the output file and the progress of the download;
    when it raises, or when no resume was asked for, [Range] and the
    download are as they were too. *)
Theorem pre_request_touches_two_headers (disk : Disk)
    (request_headers headers' : gmap string (option string))
    (self self' : Download) (r : result unit) :
  pre_request disk request_headers self = (r, headers', self') ->
  headers' !! "Accept-Encoding" = Some None
  /\ (forall key, key <> "Accept-Encoding" -> key <> "Range" ->
                  headers' !! key = request_headers !! key)
  /\ _output_file self' = _output_file self
  /\ _resume self' = _resume self
  /\ _progress self' = _progress self
  /\ (r <> Ok tt \/ _resume self = false ->
      headers' !! "Range" = request_headers !! "Range" /\ self' = self).
Proof.
  unfold pre_request.
  assert (Hplain : forall r0,
             (r0, <["Accept-Encoding" := None]> request_headers, self)
             = (r, headers', self') ->
             headers' !! "Accept-Encoding" = Some None
             /\ (forall key, key <> "Accept-Encoding" -> key <> "Range" ->
                             headers' !! key = request_headers !! key)
             /\ _output_file self' = _output_file self
             /\ _resume self' = _resume self
             /\ _progress self' = _progress self
             /\ (r <> Ok tt \/ _resume self = false ->
                 headers' !! "Range" = request_headers !! "Range"
                 /\ self' = self)).
  { intros r0 H; inversion H; subst.
    split; [apply lookup_insert_eq|]. split.
    { intros key Hk _. apply lookup_insert_ne. congruence. }
    repeat split. apply lookup_insert_ne. discriminate. }
  destruct (_resume self) eqn:Hresume; [|apply Hplain].
  destruct (_output_file self) as [f|] eqn:Hfile; [|apply Hplain].
  destruct (getsize disk (name f)) as [bytes_have|e]; [|apply Hplain].
  destruct (negb (bytes_have =? 0)); [|apply Hplain].
  intros H; inversion H; subst.
  split; [rewrite lookup_insert_ne by discriminate; apply lookup_insert_eq|].
  split.
  { intros key Hk Hr. rewrite !lookup_insert_ne by congruence. reflexivity. }
  split; [exact Hfile|]. split; [exact Hresume|]. split; [reflexivity|].
  intros [Hbad | Hbad]; [exfalso; apply Hbad; reflexivity | discriminate].
Qed.

(** ** The spinner *)

Lemma spinner_glyph_at (pos : nat) :
  (pos < String.length SPINNER)%nat -> spinner_glyph pos = Ok (glyph_at pos).
Proof.
  intros H. do 4 (destruct pos as [|pos]; [reflexivity|]). simpl in H. lia.
Qed.

Lemma next_spinner_pos_mod (pos : nat) :
  (pos < String.length SPINNER)%nat ->
  next_spinner_pos pos = (S pos mod String.length SPINNER)%nat.
Proof.
  intros H. do 4 (destruct pos as [|pos]; [reflexivity|]). simpl in H. lia.
Qed.

Lemma glyph_at_mod (pos : nat) :
  glyph_at (pos mod String.length SPINNER) = glyph_at pos.
Proof.
  unfold glyph_at. rewrite Nat.Div0.mod_mod. reflexivity.
Qed.

Lemma redrawn_same_glyphs (line : string) (count : nat) :
  forall pos pos',
    (forall k, glyph_at (k + pos) = glyph_at (k + pos')) ->
    redrawn line pos count = redrawn line pos' count.
Proof.
  induction count as [|count IH]; intros pos pos' Hall; simpl;
    [reflexivity|].
  rewrite (Hall 0%nat : glyph_at pos = glyph_at pos'). f_equal. apply IH.
  intros k. replace (k + S pos)%nat with (S k + pos)%nat by lia.
  replace (k + S pos')%nat with (S k + pos')%nat by lia. apply Hall.
Qed.

Lemma redrawn_next (line : string) (pos count : nat) :
  (pos < String.length SPINNER)%nat ->
  redrawn line (next_spinner_pos pos) count = redrawn line (S pos) count.
Proof.
  intros H. apply redrawn_same_glyphs. intros k.
  rewrite (next_spinner_pos_mod pos H).
  rewrite <- (glyph_at_mod (k + _)), <- (glyph_at_mod (k + S pos)).
  rewrite Nat.Div0.add_mod_idemp_r. reflexivity.
Qed.

(** X17: wakes that all fall inside the update interval recompute
    nothing: each writes the clear-line sequence, the next glyph of
    [|/-\], a space and the status line as it stands, so that the glyphs
    cycle with period four while the line, the sample and the sample time
    stay as they are. *)
Theorem wakes_inside_interval (nows : list Q) (progress : Progress) :
  forall self : ProgressReporter,
    (_spinner_pos self < String.length SPINNER)%nat ->
    Forall (fun now =>
              Qle_bool (_update_interval self) (now - _prev_time self)
              = false) nows ->
    exists self',
      wakes nows progress self = (Ok tt, self')
      /\ output self'
         = (output self
            ++ redrawn (_status_line self) (_spinner_pos self)
                 (List.length nows))%list
      /\ _spinner_pos self'
         = ((_spinner_pos self + List.length nows)
            mod String.length SPINNER)%nat
      /\ _status_line self' = _status_line self
      /\ _prev_bytes self' = _prev_bytes self
      /\ _prev_time self' = _prev_time self
      /\ _update_interval self' = _update_interval self.
Proof.
  induction nows as [|now nows IH]; intros self Hpos Hin.
  - exists self. split; [reflexivity|]. cbn [redrawn List.length].
    rewrite app_nil_r, Nat.add_0_r, Nat.mod_small by exact Hpos.
    repeat split.
  - apply Forall_cons_iff in Hin as [Hnow Hin]. simpl wakes.
    rewrite (report_speed_inside_interval now progress self
               (glyph_at (_spinner_pos self)) Hnow
               (spinner_glyph_at _ Hpos)).
    match goal with
    | |- context [wakes nows progress ?s] => set (self1 := s)
    end.
    destruct (IH self1) as [self' (Hrun & Hout & Hp & Hl & Hb & Ht & Hi)].
    { apply next_spinner_pos_in_range. exact Hpos. }
    { exact Hin. }
    exists self'. split; [exact Hrun|].
    rewrite Hout, Hp, Hl, Hb, Ht, Hi.
    cbn [self1 advance_spinner write output _spinner_pos _status_line
         _prev_bytes _prev_time _update_interval redrawn List.length].
    rewrite redrawn_next by exact Hpos.
    rewrite <- app_assoc.
    split; [reflexivity|]. split; [|repeat split].
    rewrite (next_spinner_pos_mod _ Hpos).
    rewrite Nat.Div0.add_mod_idemp_l. f_equal. lia.
Qed.

(** ** File names, further *)

Lemma lstrip_dots_no_dot (s : string) :
  starts_with_dot (Text.lstrip_dots s) = false.
Proof.
  induction s as [|c s IH]; simpl; [reflexivity|].
  destruct (Ascii.eqb c ".") eqn:E; [exact IH|]. simpl. exact E.
Qed.

(** X18: a name [filename_from_content_disposition] returns is not
    empty, is made of letters, digits, dots, underscores and dashes only,
    holds no slash and no white space, and does not start with a dot:
    it names no hidden file and no file in another directory. *)
Theorem filename_from_content_disposition_safe (header fn : string) :
  filename_from_content_disposition header = Some fn ->
  fn <> EmptyString
  /\ Text.all_chars Text.is_name_char fn = true
  /\ has_char "/" fn = false
  /\ Text.all_chars not_space fn = true
  /\ starts_with_dot fn = false.
Proof.
  intros H.
  apply filename_from_content_disposition_iff in H
    as [token (Htoken & -> & Hne & Hall)].
  split; [exact Hne|]. split; [exact Hall|]. split.
  - apply (all_chars_has_char Text.is_name_char); [exact Hall | reflexivity].
  - split; [|apply lstrip_dots_no_dot].
    apply lstrip_dots_all_chars.
    apply (search_filename_no_space header). exact Htoken.
Qed.

Lemma rstrip_slashes_no_final_slash (s : string) :
  ends_with_slash (rstrip_slashes s) = false.
Proof.
  induction s as [|c s IH]; simpl; [reflexivity|].
  destruct (rstrip_slashes s) as [|c' r] eqn:E; simpl.
  - destruct (Ascii.eqb c "/") eqn:Hc; simpl; [reflexivity | exact Hc].
  - exact IH.
Qed.

Lemma basename_from_no_slash (s : string) :
  forall seen,
    has_char "/" seen = false ->
    has_char "/" (basename_from seen s) = false.
Proof.
  induction s as [|c s IH]; intros seen Hseen; simpl; [exact Hseen|].
  destruct (Ascii.eqb_spec c "/") as [->|Hc].
  - apply IH. reflexivity.
  - apply IH. rewrite has_char_app, Hseen. cbn [has_char orb].
    rewrite (proj2 (Ascii.eqb_neq "/" c)) by congruence. reflexivity.
Qed.

Lemma basename_from_empty (s : string) :
  forall seen,
    basename_from seen s = EmptyString ->
    (s = EmptyString /\ seen = EmptyString) \/ ends_with_slash s = true.
Proof.
  induction s as [|c s IH]; intros seen H; simpl in H.
  - left. split; [reflexivity | exact H].
  - right. simpl.
    destruct (Ascii.eqb_spec c "/") as [->|Hc].
    + destruct (IH _ H) as [[-> _] | Hs]; [reflexivity|].
      destruct s; [discriminate Hs | exact Hs].
    + destruct (IH _ H) as [[_ Hseen] | Hs].
      * destruct seen; discriminate Hseen.
      * destruct s; [discriminate Hs | exact Hs].
Qed.

Lemma url_basename_plain (url : string) :
  url_basename url <> EmptyString
  /\ has_char "/" (url_basename url) = false.
Proof.
  unfold url_basename. cbv zeta.
  pose proof (rstrip_slashes_no_final_slash (urlsplit_path url)) as Hend.
  destruct (rstrip_slashes (urlsplit_path url)) as [|c r] eqn:E.
  - split; [discriminate | reflexivity].
  - cbn [Text.is_empty]. split.
    + intros Hempty. unfold basename in Hempty.
      apply basename_from_empty in Hempty as [[H _] | H].
      * discriminate H.
      * rewrite Hend in H. discriminate H.
    + apply basename_from_no_slash. reflexivity.
Qed.

(** X19: [filename_from_url] returns the last segment of the path of the
    address, or [index] when the path holds nothing but slashes, followed
    by at most an extension. That segment is not empty and holds no
    slash; no extension is added when it has a dot or when there is no
    content type; and for [text/plain] the extension is [.txt], whatever
    [mimetypes] would say. *)
Theorem filename_from_url_shape (url : string)
    (content_type : option string) :
  url_basename url <> EmptyString
  /\ has_char "/" (url_basename url) = false
  /\ (rstrip_slashes (urlsplit_path url) = EmptyString ->
      url_basename url = "index")
  /\ exists ext,
       filename_from_url url content_type = url_basename url ++ ext
       /\ (has_dot (url_basename url) = true \/ content_type = None
           \/ content_type = Some EmptyString ->
           ext = EmptyString)
       /\ (forall c,
             content_type = Some c -> c <> EmptyString ->
             has_dot (url_basename url) = false ->
             before_semicolon c = "text/plain" -> ext = ".txt").
Proof.
  destruct (url_basename_plain url) as [Hne Hslash].
  split; [exact Hne|]. split; [exact Hslash|]. split.
  { intros H. unfold url_basename. rewrite H. reflexivity. }
  unfold filename_from_url. fold (url_basename url).
  destruct content_type as [c|].
  - destruct (has_dot (url_basename url)) eqn:Hdot; cbn [negb andb].
    + exists EmptyString. rewrite append_empty.
      split; [reflexivity|]. split; [reflexivity|].
      intros c' _ _ H. discriminate H.
    + destruct c as [|x c]; cbn [Text.is_empty negb].
      * exists EmptyString. rewrite append_empty.
        split; [reflexivity|]. split; [reflexivity|].
        intros c' Hc' Hne'. inversion Hc'; subst. contradiction.
      * destruct (String.eqb_spec (before_semicolon (String x c))
                    "text/plain") as [Hplain|Hother].
        -- exists ".txt". cbn [Text.is_empty].
           split; [reflexivity|]. split.
           ++ intros [H | [H | H]]; discriminate H.
           ++ intros c' _ _ _ _. reflexivity.
        -- destruct (guess_extension (before_semicolon (String x c)))
             as [ext|].
           ++ exists ext. split.
              ** destruct ext; [rewrite append_empty|]; reflexivity.
              ** split; [intros [H | [H | H]]; discriminate H|].
                 intros c' Hc' _ _ Hp. inversion Hc'; subst c'.
                 contradiction.
           ++ exists EmptyString. rewrite append_empty.
              split; [reflexivity|]. split; [reflexivity|].
              intros c' Hc' _ _ Hp. inversion Hc'; subst c'.
              contradiction.
  - exists EmptyString. rewrite append_empty.
    split; [reflexivity|]. split; [reflexivity|].
    intros c H. discriminate H.
Qed.

(** ** The reporter, further *)

(** X20: a wake after the download has finished schedules no other wake,
    whatever else it does; and when the total size is known and the clock
    moved between start and finish it writes the clear-line sequence and
    the summary (the bytes of this session, the total, the time taken and
    their quotient per second), whatever the clock reads at the wake. *)
Theorem report_after_finish (now : Q) (progress : Progress)
    (self : ProgressReporter) :
  has_finished progress = true ->
  fst (report now progress self) <> Ok true
  /\ forall total t0 t1,
       total_size progress = Some total ->
       time_started progress = Some t0 ->
       time_finished progress = Some t1 ->
       ~ (t1 - t0 == 0)%Q ->
       report now progress self
       = (Ok false,
          write (SUMMARY
                   (humanize_bytes
                      (inject_Z (downloaded progress
                                 - resumed_from progress)))
                   (humanize_bytes (inject_Z total))
                   (t1 - t0)%Q
                   (humanize_bytes
                      (inject_Z (downloaded progress
                                 - resumed_from progress)
                       / (t1 - t0))%Q))
            (write CLEAR_LINE self))
       /\ output (snd (report now progress self))
          = (output self
             ++ CLEAR_LINE
             :: SUMMARY
                  (humanize_bytes
                     (inject_Z (downloaded progress
                                - resumed_from progress)))
                  (humanize_bytes (inject_Z total))
                  (t1 - t0)%Q
                  (humanize_bytes
                     (inject_Z (downloaded progress
                                - resumed_from progress)
                      / (t1 - t0))%Q)
             :: nil)%list.
Proof.
  intros Hfin. unfold report. rewrite Hfin. split.
  - destruct (sum_up progress self) as [[[]|e] self']; simpl; discriminate.
  - intros total t0 t1 Ht H0 H1 Hne.
    rewrite (sum_up_known_total progress self total t0 t1 Ht H0 H1 Hne).
    split; [reflexivity|].
    cbn [snd output write]. rewrite <- app_assoc. reflexivity.
Qed.

(** X21: with the spinner inside its four glyphs, [report_speed] writes
    exactly one text when it returns, and the spinner moves on by one;
    when it raises it has written nothing and the reporter is as it
    was. *)
Theorem report_speed_writes_once (now : Q) (progress : Progress)
    (self self' : ProgressReporter) (r : result unit) :
  (_spinner_pos self < String.length SPINNER)%nat ->
  report_speed now progress self = (r, self') ->
  (r = Ok tt ->
   output self'
   = (output self
      ++ (CLEAR_LINE ++ glyph_at (_spinner_pos self) ++ " "
          ++ _status_line self')%string :: nil)%list
   /\ _spinner_pos self' = next_spinner_pos (_spinner_pos self))
  /\ (forall e, r = Raise e -> self' = self).
Proof.
  intros Hpos. unfold report_speed.
  destruct (Qle_bool (_update_interval self) (now - _prev_time self)).
  - destruct (status_line now progress self) as [line|e]; simpl.
    + rewrite (spinner_glyph_at _ Hpos).
      intros H; inversion H; subst. simpl. split.
      * intros _. split; reflexivity.
      * intros e He. discriminate He.
    + intros H; inversion H; subst. split.
      * intros He. discriminate He.
      * intros e' _. reflexivity.
  - rewrite (spinner_glyph_at _ Hpos).
    intros H; inversion H; subst. simpl. split.
    + intros _. split; reflexivity.
    + intros e He. discriminate He.
Qed.




(** ** The time left *)

Lemma py_int_of_float_not_negative (x : Q) :
  (0 <= x)%Q -> 0 <= py_int_of_float x.
Proof.
  intros H. unfold py_int_of_float. unfold Qle in H. simpl in H.
  apply Z.quot_pos; lia.
Qed.

(** X23: while bytes have arrived since the previous sample, the clock
    has moved and the counter has not passed a known total size, the
    speed computed is positive and the time left handed to [timedelta] is
    a whole number of seconds that is not negative; no division by zero
    and no [TypeError] arise. *)
Theorem eta_not_negative (now : Q) (progress : Progress)
    (self : ProgressReporter) (total : Z) :
  total_size progress = Some total ->
  _prev_bytes self < downloaded progress <= total ->
  (0 < now - _prev_time self)%Q ->
  exists speed seconds,
    (0 < speed)%Q /\ 0 <= seconds
    /\ (speed
        == inject_Z (downloaded progress - _prev_bytes self)
           / (now - _prev_time self))%Q
    /\ speed_and_eta now progress self
       = (eta <- str_timedelta seconds ;; Ok (speed, eta)).
Proof.
  intros Htotal Hbytes Helapsed.
  set (speed := (inject_Z (downloaded progress - _prev_bytes self)
                 / (now - _prev_time self))%Q).
  assert (Hspeed : (0 < speed)%Q).
  { unfold speed, Qdiv. apply Qmult_lt_0_compat.
    - unfold Qlt. simpl. lia.
    - apply Qinv_lt_0_compat. exact Helapsed. }
  exists speed,
    (py_int_of_float (inject_Z (total - downloaded progress) / speed)).
  split; [exact Hspeed|]. split.
  { apply py_int_of_float_not_negative. unfold Qdiv.
    apply Qmult_le_0_compat.
    - unfold Qle. simpl. lia.
    - apply Qinv_le_0_compat. apply Qlt_le_weak. exact Hspeed. }
  split; [reflexivity|].
  unfold speed_and_eta, py_div. rewrite Htotal.
  destruct (Qeq_bool (now - _prev_time self) 0) eqn:E.
  { apply Qeq_bool_eq in E. rewrite E in Helapsed.
    discriminate Helapsed. }
  cbn [bind py_sub_optional]. fold speed.
  destruct (Qeq_bool speed 0) eqn:S.
  { apply Qeq_bool_eq in S. rewrite S in Hspeed. discriminate Hspeed. }
  reflexivity.
Qed.

End Downloads.

(** * The properties at concrete inputs *)

(** Two chunks of 400 and 600 bytes against an announced length of 1000:
    not interrupted. Only the first chunk: interrupted. *)
Example transfer_complete :
  transfer Sample.humanize_bytes Sample.format_float Sample.format_float
    Sample.str_timedelta Sample.int_of_text (fun u => u) (fun _ => None)
    0 (1 # 4) (1 # 2) 3 response_of_1000_bytes {["part.bin" := 0]}
    (body_chunk 400 :: body_chunk 600 :: nil)
    (Download_init (Some partial_file) false nil 0)
  = Some (Ok (PyBool false)).
Proof. vm_compute. reflexivity. Qed.

Example transfer_cut_short :
  transfer Sample.humanize_bytes Sample.format_float Sample.format_float
    Sample.str_timedelta Sample.int_of_text (fun u => u) (fun _ => None)
    0 (1 # 4) (1 # 2) 3 response_of_1000_bytes {["part.bin" := 0]}
    (body_chunk 400 :: nil)
    (Download_init (Some partial_file) false nil 0)
  = Some (Ok (PyBool true)).
Proof. vm_compute. reflexivity. Qed.

(** The name taken from the address: the last segment of the path, with
    [.txt] for plain text, and [index] for an empty path. *)
Example filename_from_url_notes :
  filename_from_url (fun _ => "/y/notes") (fun _ => Some ".ksh")
    "http://x/y/notes" (Some "text/plain")
  = "notes.txt".
Proof. reflexivity. Qed.

Example filename_from_url_index :
  filename_from_url (fun _ => "/") (fun _ => None) "http://x/" None
  = "index".
Proof. reflexivity. Qed.

Lemma downloaded_is_offset_plus_sizes_at_400_600 :
  exists p0 p,
    started Sample.humanize_bytes 5 100 (Some 1000) Progress_init = Ok p0
    /\ downloaded p0 = 100
    /\ chunks_downloaded (400 :: 600 :: nil) p0 = Ok p
    /\ downloaded p = 100 + sum_sizes (400 :: 600 :: nil)
    /\ forall done size rest,
         400 :: 600 :: nil = (done ++ size :: rest)%list ->
         exists p1 p2,
           chunks_downloaded done p0 = Ok p1
           /\ chunk_downloaded size p1 = Ok p2
           /\ 100 <= downloaded p1 <= downloaded p2.
Proof.
  apply (downloaded_is_offset_plus_sizes Sample.humanize_bytes 5 100
           (Some 1000) (400 :: 600 :: nil) Progress_init).
  - reflexivity.
  - reflexivity.
  - lia.
  - repeat constructor; lia.
Defined.

Lemma contract_violations_assert_at_started_download :
  started Sample.humanize_bytes 2 0 None running_progress
  = Raise AssertionError
  /\ finished 1 Progress_init = Raise AssertionError
  /\ finished 3
       {| downloaded := 0; total_size := None; resumed_from := 0;
          total_size_humanized := "?"; time_started := Some 1%Q;
          time_finished := Some 2%Q |}
     = Raise AssertionError
  /\ chunk_downloaded 8192 (_progress zero_length_download)
     = Raise AssertionError
  /\ start Sample.humanize_bytes Sample.format_float Sample.format_float
       Sample.str_timedelta Sample.int_of_text (fun u => u) (fun _ => None)
       1 20 21 bare_response ∅ zero_length_download
     = Some (Raise AssertionError, zero_length_download, ∅).
Proof.
  destruct (contract_violations_assert
              Sample.humanize_bytes Sample.format_float Sample.format_float
              Sample.str_timedelta Sample.int_of_text (fun u => u)
              (fun _ => None))
    as (Hstarted & Hunstarted & Hfinished & Hchunk & Hstart).
  split; [|split; [|split; [|split]]].
  - apply (Hstarted 1%Q 2%Q 0 0 None None Progress_init). reflexivity.
  - apply Hunstarted. reflexivity.
  - apply (Hfinished 2%Q 3%Q running_progress). reflexivity.
  - apply (Hchunk 8192 (_progress zero_length_download) 11%Q). reflexivity.
  - apply (Hstart 1%nat 20%Q 21%Q bare_response ∅ zero_length_download 10%Q).
    + reflexivity.
    + discriminate.
Defined.

Lemma report_speed_division_by_zero_at_stall :
  (exists self',
      report_speed Sample.humanize_bytes Sample.format_float
        Sample.str_timedelta 100 stalled_progress
        (ProgressReporter_init nil 99)
      = (Ok tt, self')
      /\ output self'
         = (CLEAR_LINE ++ "| 0% (0 B) of 1000 B (0 B/s) ETA ?") :: nil)
  /\ (exists self',
         report_speed Sample.humanize_bytes Sample.format_float
           Sample.str_timedelta 100 running_progress (eager_reporter 100)
         = (Ok tt, self')
         /\ output self' = (CLEAR_LINE ++ "| 0 B (0 B/s) ETA ?") :: nil)
  /\ report_speed Sample.humanize_bytes Sample.format_float
       Sample.str_timedelta 101 running_progress
       (ProgressReporter_init nil 100)
     = (Raise TypeError, ProgressReporter_init nil 100).
Proof.
  split; [|split].
  - destruct (report_speed_division_by_zero Sample.humanize_bytes
                Sample.format_float Sample.str_timedelta 100
                stalled_progress (ProgressReporter_init nil 99))
      as (_ & Hcaught & _).
    + reflexivity.
    + simpl. lia.
    + right. split; [discriminate | reflexivity].
    + destruct Hcaught
        as (glyph & self' & Hglyph & Hrun & Hline & _ & Hout & _).
      { right. discriminate. }
      exists self'. split; [exact Hrun|].
      rewrite Hout, Hline. inversion Hglyph. reflexivity.
  - destruct (report_speed_division_by_zero Sample.humanize_bytes
                Sample.format_float Sample.str_timedelta 100
                running_progress (eager_reporter 100))
      as (_ & Hcaught & _).
    + reflexivity.
    + simpl. lia.
    + left. reflexivity.
    + destruct Hcaught
        as (glyph & self' & Hglyph & Hrun & Hline & _ & Hout & _).
      { left. reflexivity. }
      exists self'. split; [exact Hrun|].
      rewrite Hout, Hline. inversion Hglyph. reflexivity.
  - destruct (report_speed_division_by_zero Sample.humanize_bytes
                Sample.format_float Sample.str_timedelta 101
                running_progress (ProgressReporter_init nil 100))
      as (_ & _ & Hraises).
    + reflexivity.
    + simpl. lia.
    + right. split; [discriminate | reflexivity].
    + apply Hraises; [split; [discriminate | reflexivity] | reflexivity].
Defined.

Lemma get_unique_filename_first_free_at_a :
  probe_name "a" 0 = "a"
  /\ (forall k, 0 < k -> probe_name "a" k = "a" ++ "-" ++ Text.str_of_Z k)
  /\ (exists n : nat,
         a_and_a1_taken (probe_name "a" (Z.of_nat n)) = false
         /\ (forall k, (k < n)%nat ->
                       a_and_a1_taken (probe_name "a" (Z.of_nat k)) = true)
         /\ (a_and_a1_taken "a" = false -> n = 0%nat)
         /\ forall fuel, (n < fuel)%nat ->
              get_unique_filename fuel "a" a_and_a1_taken
              = Some (probe_name "a" (Z.of_nat n)))
  /\ get_unique_filename 3 "a" a_and_a1_taken = Some "a-2".
Proof.
  apply (get_unique_filename_first_free "a" a_and_a1_taken).
  exists 2%nat. reflexivity.
Defined.

Lemma pre_request_resume_at_partial_file :
  exists headers' self',
    pre_request {["part.bin" := 500]} ∅
      (Download_init (Some partial_file) true nil 0)
    = (Ok tt, headers', self')
    /\ headers' !! "Accept-Encoding" = Some None
    /\ headers' !! "Range" = Some (Some "bytes=500-")
    /\ _resumed_from self' = 500
    /\ _output_file self' = Some partial_file.
Proof.
  destruct (pre_request_resume {["part.bin" := 500]} ∅
              (Download_init (Some partial_file) true nil 0) eq_refl)
    as (_ & _ & Hfile).
  destruct (Hfile partial_file 500 eq_refl eq_refl)
    as (headers' & self' & Hrun & Hencoding & Hout & _ & _ & _ & Hrange & _).
  destruct (Hrange ltac:(discriminate)) as [Hr Hoffset].
  exists headers', self'. auto.
Defined.

(** * The further properties at concrete inputs *)

(** A header whose last position has 4301 digits is read when there is
    no limit, and makes [int] raise under the limit of 4300 digits that
    is the interpreter's default. *)
Example parse_content_range_overlong_header :
  parse_content_range overlong_header 0 = Ok (10 ^ 4301)
  /\ parse_content_range_under_limit 0 overlong_header 0 = Ok (10 ^ 4301)
  /\ parse_content_range_under_limit 4300 overlong_header 0
     = Raise ValueError.
Proof. vm_compute. repeat split. Qed.


Lemma get_unique_filename_is_first_free_at_a :
  a_and_a1_taken "a-2" = false
  /\ exists k : nat,
       (k < 3)%nat
       /\ "a-2" = (if (k =? 0)%nat then "a"
                   else "a" ++ "-" ++ Text.str_of_Z (Z.of_nat k))
       /\ forall j, (j < k)%nat ->
                    a_and_a1_taken (probe_name "a" (Z.of_nat j)) = true.
Proof.
  apply (get_unique_filename_is_first_free 3 "a" a_and_a1_taken "a-2").
  reflexivity.
Defined.

Lemma start_resumed_keeps_file_at_part :
  exists r self' disk',
    start Sample.humanize_bytes Sample.format_float Sample.format_float
      Sample.str_timedelta Sample.int_of_text (fun u => u) (fun _ => None)
      0 1 (1 # 2) partial_response disk_with_part resuming_download
    = Some (r, self', disk')
    /\ disk' = disk_with_part
    /\ _output_file self' = Some partial_file
    /\ _resumed_from self' = 500.
Proof.
  destruct (start Sample.humanize_bytes Sample.format_float
              Sample.format_float Sample.str_timedelta Sample.int_of_text
              (fun u => u) (fun _ => None) 0 1 (1 # 2) partial_response
              disk_with_part resuming_download)
    as [[[r self'] disk']|] eqn:E.
  - exists r, self', disk'. split; [reflexivity|].
    destruct (start_resumed_keeps_file Sample.humanize_bytes
                Sample.format_float Sample.format_float
                Sample.str_timedelta Sample.int_of_text (fun u => u)
                (fun _ => None) 0 1 (1 # 2) partial_response
                disk_with_part disk' resuming_download self' partial_file r
                eq_refl eq_refl eq_refl E)
      as (Hdisk & Hfile & Hoffset & _).
    split; [exact Hdisk|]. split; [exact Hfile | exact Hoffset].
  - vm_compute in E. discriminate E.
Defined.

Lemma start_fresh_truncates_at_part :
  (exists self',
      start Sample.humanize_bytes Sample.format_float Sample.format_float
        Sample.str_timedelta Sample.int_of_text (fun u => u) (fun _ => None)
        0 1 (1 # 2) response_of_1000_bytes disk_with_part
        (Download_init (Some standard_output) false nil 0)
      = Some (Ok standard_output, self', disk_with_part)
      /\ _resumed_from self' = 0
      /\ downloaded (_progress self') = 0)
  /\ (exists self',
         start Sample.humanize_bytes Sample.format_float Sample.format_float
           Sample.str_timedelta Sample.int_of_text (fun u => u)
           (fun _ => None) 0 1 (1 # 2) response_of_1000_bytes disk_with_part
           (Download_init (Some partial_file) false nil 0)
         = Some (Ok partial_file, self', <["part.bin" := 0]> disk_with_part)
         /\ _resumed_from self' = 0
         /\ downloaded (_progress self') = 0).
Proof.
  split.
  - destruct (start_fresh_truncates Sample.humanize_bytes
                Sample.format_float Sample.format_float
                Sample.str_timedelta Sample.int_of_text (fun u => u)
                (fun _ => None) 0 1 (1 # 2) response_of_1000_bytes
                disk_with_part
                (Download_init (Some standard_output) false nil 0)
                standard_output eq_refl eq_refl (or_introl eq_refl) eq_refl)
      as (r & self' & p & Hrun & Hoffset & _ & _ & Hp & Hd & _ & _ & _ & _
          & Hok).
    rewrite (Hok eq_refl eq_refl ltac:(simpl; lia)) in Hrun.
    exists self'. split; [exact Hrun|]. split; [exact Hoffset|].
    rewrite Hp. exact Hd.
  - destruct (start_fresh_truncates Sample.humanize_bytes
                Sample.format_float Sample.format_float
                Sample.str_timedelta Sample.int_of_text (fun u => u)
                (fun _ => None) 0 1 (1 # 2) response_of_1000_bytes
                disk_with_part
                (Download_init (Some partial_file) false nil 0)
                partial_file eq_refl eq_refl (or_introl eq_refl) eq_refl)
      as (r & self' & p & Hrun & Hoffset & _ & _ & Hp & Hd & _ & _ & _ & _
          & Hok).
    rewrite (Hok eq_refl eq_refl ltac:(simpl; lia)) in Hrun.
    exists self'. split; [exact Hrun|]. split; [exact Hoffset|].
    rewrite Hp. exact Hd.
Defined.

Lemma start_picks_new_file_at_report :
  start Sample.humanize_bytes Sample.format_float Sample.format_float
    Sample.str_timedelta Sample.int_of_text (fun u => u) (fun _ => None)
    (S (size disk_with_report)) 1 (1 # 2) named_response disk_with_report
    (Download_init None false nil 0)
  <> None
  /\ exists r self' disk',
       start Sample.humanize_bytes Sample.format_float Sample.format_float
         Sample.str_timedelta Sample.int_of_text (fun u => u)
         (fun _ => None) 2 1 (1 # 2) named_response disk_with_report
         (Download_init None false nil 0)
       = Some (r, self', disk')
       /\ exists f k,
            _output_file self' = Some f
            /\ closed f = false
            /\ name f
               = probe_name
                   (suggested_filename (fun u => u) (fun _ => None)
                      named_response) (Z.of_nat k)
            /\ (forall j, (j < k)%nat ->
                  disk_with_report
                  !! probe_name
                       (suggested_filename (fun u => u) (fun _ => None)
                          named_response) (Z.of_nat j)
                  <> None)
            /\ disk_with_report !! name f = None
            /\ disk' = <[name f := 0]> disk_with_report
            /\ _resumed_from self' = 0.
Proof.
  destruct (start_picks_new_file Sample.humanize_bytes Sample.format_float
              Sample.format_float Sample.str_timedelta Sample.int_of_text
              (fun u => u) (fun _ => None) 1 (1 # 2) named_response
              disk_with_report (Download_init None false nil 0)
              eq_refl eq_refl) as [Hends Hfile].
  split; [exact Hends|].
  destruct (start Sample.humanize_bytes Sample.format_float
              Sample.format_float Sample.str_timedelta Sample.int_of_text
              (fun u => u) (fun _ => None) 2 1 (1 # 2) named_response
              disk_with_report (Download_init None false nil 0))
    as [[[r self'] disk']|] eqn:E.
  - exists r, self', disk'. split; [reflexivity|].
    exact (Hfile 2%nat r self' disk' E).
  - vm_compute in E. discriminate E.
Defined.


Lemma transfer_interrupted_at_400_600 :
  exists v,
    transfer Sample.humanize_bytes Sample.format_float Sample.format_float
      Sample.str_timedelta Sample.int_of_text (fun u => u) (fun _ => None)
      0 1 (1 # 2) 3 response_of_1000_bytes disk_with_part
      (body_chunk 400 :: body_chunk 600 :: nil)
      (Download_init (Some partial_file) false nil 0)
    = Some (Ok v)
    /\ truthy v
       = match declared_length Sample.int_of_text response_of_1000_bytes
         with
         | Some n =>
             negb (n =? 0)
             && negb (n =? received (body_chunk 400 :: body_chunk 600 :: nil))
         | None => false
         end.
Proof.
  apply (transfer_interrupted Sample.humanize_bytes Sample.format_float
           Sample.format_float Sample.str_timedelta Sample.int_of_text
           (fun u => u) (fun _ => None) 0 0 1 (1 # 2) 3 nil partial_file
           disk_with_part response_of_1000_bytes
           (body_chunk 400 :: body_chunk 600 :: nil));
    reflexivity.
Defined.

Lemma progress_frozen_once_finished_at_running :
  (forall c, exists e,
      call_progress Sample.humanize_bytes c
        {| downloaded := 0; total_size := None; resumed_from := 0;
           total_size_humanized := "?"; time_started := Some 1%Q;
           time_finished := Some 2%Q |}
      = Raise e)
  /\ after_calls Sample.humanize_bytes
       (CallChunkDownloaded 5 :: CallStarted 9 0 None :: CallFinished 9
        :: nil)
       {| downloaded := 0; total_size := None; resumed_from := 0;
          total_size_humanized := "?"; time_started := Some 1%Q;
          time_finished := Some 2%Q |}
     = {| downloaded := 0; total_size := None; resumed_from := 0;
          total_size_humanized := "?"; time_started := Some 1%Q;
          time_finished := Some 2%Q |}.
Proof.
  apply (progress_frozen_once_finished Sample.humanize_bytes
           (CallChunkDownloaded 5 :: CallStarted 9 0 None :: CallFinished 9
            :: nil) 2 running_progress).
  reflexivity.
Defined.

Lemma progress_counters_ordered_at_400 :
  0 <= resumed_from
         (after_calls Sample.humanize_bytes
            (CallStarted 1 100 (Some 1000) :: CallChunkDownloaded 400
             :: CallFinished 2 :: nil) Progress_init)
    <= downloaded
         (after_calls Sample.humanize_bytes
            (CallStarted 1 100 (Some 1000) :: CallChunkDownloaded 400
             :: CallFinished 2 :: nil) Progress_init).
Proof.
  apply (progress_counters_ordered Sample.humanize_bytes
           (CallStarted 1 100 (Some 1000) :: CallChunkDownloaded 400
            :: CallFinished 2 :: nil)).
  repeat constructor; simpl; lia.
Defined.

Lemma finish_before_start_closes_at_new :
  finish 3 (Download_init (Some partial_file) false nil 0)
  = (Raise AssertionError,
     with_output_file
       {| name := name partial_file; closed := true;
          seekable := seekable partial_file |}
       (Download_init (Some partial_file) false nil 0))
  /\ _output_file
       (snd (finish 3 (Download_init (Some partial_file) false nil 0)))
     = Some {| name := "part.bin"; closed := true; seekable := true |}.
Proof.
  destruct (finish_before_start_closes 3
              (Download_init (Some partial_file) false nil 0) partial_file
              eq_refl eq_refl eq_refl) as (Hrun & Hfile & _).
  split; [exact Hrun | exact Hfile].
Defined.

Lemma pre_request_touches_two_headers_at_part :
  exists r headers' self',
    pre_request disk_with_part {["User-Agent" := Some "HTTPie"]}
      (Download_init (Some partial_file) true nil 0)
    = (r, headers', self')
    /\ headers' !! "Accept-Encoding" = Some None
    /\ headers' !! "User-Agent" = Some (Some "HTTPie")
    /\ _progress self' = Progress_init.
Proof.
  destruct (pre_request disk_with_part {["User-Agent" := Some "HTTPie"]}
              (Download_init (Some partial_file) true nil 0))
    as [[r headers'] self'] eqn:E.
  exists r, headers', self'. split; [reflexivity|].
  destruct (pre_request_touches_two_headers _ _ _ _ _ _ E)
    as (Hencoding & Hothers & _ & _ & Hprogress & _).
  split; [exact Hencoding|]. split; [|exact Hprogress].
  rewrite (Hothers "User-Agent") by discriminate. reflexivity.
Defined.

Lemma wakes_inside_interval_at_five :
  exists self',
    wakes Sample.humanize_bytes Sample.format_float Sample.str_timedelta
      ((1 # 10) :: (2 # 10) :: (3 # 10) :: (4 # 10) :: (5 # 10) :: nil)%Q
      stalled_progress (ProgressReporter_init nil 0)
    = (Ok tt, self')
    /\ output self' = (nil ++ redrawn "" 0 5)%list
    /\ _spinner_pos self' = ((0 + 5) mod String.length SPINNER)%nat
    /\ _status_line self' = ""
    /\ _prev_bytes self' = 0
    /\ _prev_time self' = 0%Q
    /\ _update_interval self' = 1%Q.
Proof.
  apply (wakes_inside_interval Sample.humanize_bytes Sample.format_float
           Sample.str_timedelta
           ((1 # 10) :: (2 # 10) :: (3 # 10) :: (4 # 10) :: (5 # 10)
            :: nil)%Q stalled_progress (ProgressReporter_init nil 0)).
  - simpl. lia.
  - repeat constructor.
Defined.

Lemma filename_from_content_disposition_safe_at_report :
  "report.tar.gz" <> EmptyString
  /\ Text.all_chars Text.is_name_char "report.tar.gz" = true
  /\ has_char "/" "report.tar.gz" = false
  /\ Text.all_chars not_space "report.tar.gz" = true
  /\ starts_with_dot "report.tar.gz" = false.
Proof.
  apply (filename_from_content_disposition_safe
           "attachment; filename=report.tar.gz" "report.tar.gz").
  reflexivity.
Defined.

Lemma report_after_finish_at_resumed :
  fst (report Sample.humanize_bytes Sample.format_float Sample.format_float
         Sample.str_timedelta 99 (resumed_progress (Some 1100) 5)
         (ProgressReporter_init nil 0))
  <> Ok true
  /\ output
       (snd (report Sample.humanize_bytes Sample.format_float
               Sample.format_float Sample.str_timedelta 99
               (resumed_progress (Some 1100) 5)
               (ProgressReporter_init nil 0)))
     = CLEAR_LINE
       :: ("Done. 1000 B of 1100 B in 10s (100 B/s)"
           ++ String Text.newline "")
       :: nil.
Proof.
  destruct (report_after_finish Sample.humanize_bytes Sample.format_float
              Sample.format_float Sample.str_timedelta 99
              (resumed_progress (Some 1100) 5) (ProgressReporter_init nil 0)
              eq_refl) as [Hlast Hsummary].
  split; [exact Hlast|].
  destruct (Hsummary 1100 5%Q (5 + 10)%Q eq_refl eq_refl eq_refl
              ltac:(discriminate)) as [_ Hout].
  rewrite Hout. reflexivity.
Defined.

Lemma report_speed_writes_once_at_stall :
  exists r self',
    report_speed Sample.humanize_bytes Sample.format_float
      Sample.str_timedelta 100 stalled_progress
      (ProgressReporter_init nil 99)
    = (r, self')
    /\ (r = Ok tt ->
        output self'
        = (nil ++ (CLEAR_LINE ++ glyph_at 0 ++ " " ++ _status_line self')%string
                  :: nil)%list
        /\ _spinner_pos self' = next_spinner_pos 0)
    /\ (forall e, r = Raise e -> self' = ProgressReporter_init nil 99).
Proof.
  destruct (report_speed Sample.humanize_bytes Sample.format_float
              Sample.str_timedelta 100 stalled_progress
              (ProgressReporter_init nil 99)) as [r self'] eqn:E.
  exists r, self'. split; [reflexivity|].
  apply (report_speed_writes_once Sample.humanize_bytes Sample.format_float
           Sample.str_timedelta 100 stalled_progress
           (ProgressReporter_init nil 99) self' r); [simpl; lia | exact E].
Defined.


Lemma eta_not_negative_at_half :
  exists speed seconds,
    (0 < speed)%Q /\ 0 <= seconds
    /\ (speed == inject_Z (500 - 0) / (100 - 99))%Q
    /\ speed_and_eta Sample.str_timedelta 100
         {| downloaded := 500; total_size := Some 1000; resumed_from := 0;
            total_size_humanized := "1000 B"; time_started := Some 99%Q;
            time_finished := None |}
         (ProgressReporter_init nil 99)
       = (eta <- Sample.str_timedelta seconds ;; Ok (speed, eta)).
Proof.
  apply (eta_not_negative Sample.str_timedelta 100
           {| downloaded := 500; total_size := Some 1000; resumed_from := 0;
              total_size_humanized := "1000 B"; time_started := Some 99%Q;
              time_finished := None |}
           (ProgressReporter_init nil 99) 1000).
  - reflexivity.
  - simpl. lia.
  - reflexivity.
Defined.
